(** * eslint-plugin-functional: the rules [functional-parameters] and
      [no-promise-reject]

    A shallow embedding of [src/rules/functional-parameters.ts] and
    [src/rules/no-promise-reject.ts], and the properties of their node
    handlers.

    Layout: the syntax tree and the rule result types, then the two rule
    modules (options, messages, detectors, handlers), then the option schema
    with the validator it is checked by, then a model of the imported tree
    utilities; the theorems follow the definitions. *)

From Stdlib Require Import String List Bool Arith ZArith QArith Lia.
Import ListNotations.

#[global] Set Warnings "-register-all".

Local Open Scope string_scope.
Local Open Scope list_scope.
Local Open Scope nat_scope.

(* ================================================================== *)
(** * The syntax tree (the part of [TSESTree] the two rules read)      *)
(* ================================================================== *)

(** The [type] discriminant of a node. *)
Module AST_NODE_TYPES.

Inductive t : Type :=
| ArrayPattern
| ArrowFunctionExpression
| AssignmentPattern
| BlockStatement
| CallExpression
| FunctionDeclaration
| FunctionExpression
| Identifier
| Literal
| MemberExpression
| ObjectPattern
| Property
| RestElement
| OtherType (name : string).

Definition eqb (a b : t) : bool :=
  match a, b with
  | ArrayPattern, ArrayPattern
  | ArrowFunctionExpression, ArrowFunctionExpression
  | AssignmentPattern, AssignmentPattern
  | BlockStatement, BlockStatement
  | CallExpression, CallExpression
  | FunctionDeclaration, FunctionDeclaration
  | FunctionExpression, FunctionExpression
  | Identifier, Identifier
  | Literal, Literal
  | MemberExpression, MemberExpression
  | ObjectPattern, ObjectPattern
  | Property, Property
  | RestElement, RestElement => true
  | OtherType x, OtherType y => String.eqb x y
  | _, _ => false
  end.

End AST_NODE_TYPES.

Module TSESTree.

(** [node.parent], one hop: the parent's type and the field of the parent
    this node sits in.  [node.parent.callee === node] reads
    [parent_field = "callee"]. *)
Record ParentLink : Type := ChildOf {
  parent_type : AST_NODE_TYPES.t;
  parent_field : string
}.

(** A node: the [parent] link every node carries and its own shape. *)
Inductive Node : Type :=
| mkNode (parent : option ParentLink) (shape : Shape)
with Shape : Type :=
| Identifier (name : string)
| Literal (raw : string)
| RestElement (argument : Node)
| AssignmentPattern (left right : Node)
| ArrayPattern (elements : list Node)
| ObjectPattern (properties : list Node)
| Property (key value : Node) (computed : bool)
| MemberExpression (object property : Node) (computed : bool)
| CallExpression (callee : Node) (arguments : list Node)
| FunctionDeclaration (id : option Node) (params : list Node) (body : Node)
| FunctionExpression (id : option Node) (params : list Node) (body : Node)
| ArrowFunctionExpression (params : list Node) (body : Node)
| BlockStatement (body : list Node)
| OtherNode (type : string) (children : list Node).

Definition parent (n : Node) : option ParentLink :=
  match n with mkNode p _ => p end.

Definition shape (n : Node) : Shape :=
  match n with mkNode _ s => s end.

Definition type (n : Node) : AST_NODE_TYPES.t :=
  match shape n with
  | Identifier _ => AST_NODE_TYPES.Identifier
  | Literal _ => AST_NODE_TYPES.Literal
  | RestElement _ => AST_NODE_TYPES.RestElement
  | AssignmentPattern _ _ => AST_NODE_TYPES.AssignmentPattern
  | ArrayPattern _ => AST_NODE_TYPES.ArrayPattern
  | ObjectPattern _ => AST_NODE_TYPES.ObjectPattern
  | Property _ _ _ => AST_NODE_TYPES.Property
  | MemberExpression _ _ _ => AST_NODE_TYPES.MemberExpression
  | CallExpression _ _ => AST_NODE_TYPES.CallExpression
  | FunctionDeclaration _ _ _ => AST_NODE_TYPES.FunctionDeclaration
  | FunctionExpression _ _ _ => AST_NODE_TYPES.FunctionExpression
  | ArrowFunctionExpression _ _ => AST_NODE_TYPES.ArrowFunctionExpression
  | BlockStatement _ => AST_NODE_TYPES.BlockStatement
  | OtherNode t _ => AST_NODE_TYPES.OtherType t
  end.

(** The three function node types, the union [checkFunction] is typed
    with. *)
Inductive FunctionType : Type :=
| IsArrowFunctionExpression
| IsFunctionDeclaration
| IsFunctionExpression.

(** [ArrowFunctionExpression | FunctionDeclaration | FunctionExpression]:
    a node of one of the three function types, with the fields they
    share. *)
Record FunctionNode : Type := mkFunctionNode {
  fn_parent : option ParentLink;
  fn_type : FunctionType;
  fn_id : option Node;
  params : list Node;
  fn_body : Node
}.

(** A function node seen as a plain node (the upcast to [TSESTree.Node]). *)
Definition ofFunction (f : FunctionNode) : Node :=
  mkNode (fn_parent f)
    match fn_type f with
    | IsArrowFunctionExpression =>
        ArrowFunctionExpression (params f) (fn_body f)
    | IsFunctionDeclaration =>
        FunctionDeclaration (fn_id f) (params f) (fn_body f)
    | IsFunctionExpression =>
        FunctionExpression (fn_id f) (params f) (fn_body f)
    end.

(** [TSESTree.Identifier]. *)
Record IdentifierNode : Type := mkIdentifierNode {
  id_parent : option ParentLink;
  name : string
}.

Definition ofIdentifier (i : IdentifierNode) : Node :=
  mkNode (id_parent i) (Identifier (name i)).

(** [TSESTree.CallExpression]. *)
Record CallExpressionNode : Type := mkCallExpressionNode {
  call_parent : option ParentLink;
  callee : Node;
  arguments : list Node
}.

Definition ofCallExpression (c : CallExpressionNode) : Node :=
  mkNode (call_parent c) (CallExpression (callee c) (arguments c)).

End TSESTree.

(* ================================================================== *)
(** * Rule results ([~/util/rule], the types only)                     *)
(* ================================================================== *)

Module Rule.

(** A [ReportDescriptor]: the node reported and the key of its message. *)
Record Descriptor (MessageIds : Type) : Type := mkDescriptor {
  node : TSESTree.Node;
  messageId : MessageIds
}.
Arguments mkDescriptor {MessageIds} _ _.
Arguments node {MessageIds} _.
Arguments messageId {MessageIds} _.

(** [RuleResult<MessageIds, Options>]. *)
Record RuleResult (MessageIds Context : Type) : Type := mkRuleResult {
  context : Context;
  descriptors : list (Descriptor MessageIds)
}.
Arguments mkRuleResult {MessageIds Context} _ _.
Arguments context {MessageIds Context} _.
Arguments descriptors {MessageIds Context} _.

(** The message keys of a result, in order. *)
Definition messageIds {MessageIds Context : Type}
    (r : RuleResult MessageIds Context) : list MessageIds :=
  map messageId (descriptors r).

(** Two results report the same: as many descriptors, with the same keys
    in the same order. *)
Definition sameReport {MessageIds Context : Type}
    (r1 r2 : RuleResult MessageIds Context) : Prop :=
  length (descriptors r1) = length (descriptors r2)
  /\ messageIds r1 = messageIds r2.

End Rule.

(* ================================================================== *)
(** * Type guards ([~/util/typeguard])                                 *)
(* ================================================================== *)

Module Typeguard.
Import TSESTree.

(** Modelled from the spec: [~/util/typeguard] is not among the sources;
    "a predicate tests one specific node shape and returns false for all
    other shapes, never throwing" (4.3).  Each guard compares the node's
    [type] with one discriminant. *)
Definition isRestElement (node : Node) : bool :=
  AST_NODE_TYPES.eqb (type node) AST_NODE_TYPES.RestElement.

(** Modelled from the spec: [~/util/typeguard] is not among the sources; the
    guard of identifier nodes, by the node's [type] (4.3). *)
Definition isIdentifier (node : Node) : bool :=
  AST_NODE_TYPES.eqb (type node) AST_NODE_TYPES.Identifier.

(** Modelled from the spec: [~/util/typeguard] is not among the sources; the
    guard of member expressions, by the node's [type] (4.3). *)
Definition isMemberExpression (node : Node) : bool :=
  AST_NODE_TYPES.eqb (type node) AST_NODE_TYPES.MemberExpression.

(** What [isMemberExpression], once it has returned [true], lets the code
    read next: the [object] and the [property] of the narrowed node. *)
Definition asMemberExpression (node : Node) : option (Node * Node) :=
  match shape node with
  | MemberExpression object property _ => Some (object, property)
  | _ => None
  end.

(** What [isIdentifier], once it has returned [true], lets the code read
    next: the [name] of the narrowed node. *)
Definition asIdentifier (node : Node) : option string :=
  match shape node with
  | Identifier name => Some name
  | _ => None
  end.

End Typeguard.

(* ================================================================== *)
(** * The rule [functional-parameters]                                 *)
(* ================================================================== *)

Module FunctionalParameters.
Import TSESTree Rule Typeguard.

(** The name of this rule. *)
Definition name : string := "functional-parameters".

(** The parameter count options this rule can take. *)
Inductive ParameterCountOptions : Type :=
| atLeastOne
| exactlyOne.

(** The type of the option [enforceParameterCount]:
    [ParameterCountOptions | false | { count, ignoreIIFE }]. *)
Inductive EnforceParameterCount : Type :=
| EnforceFalse
| EnforceString (value : ParameterCountOptions)
| EnforceObject (count : ParameterCountOptions) (ignoreIIFE : bool).

(** The keys of [errorMessages]. *)
Inductive MessageIds : Type :=
| restParam
| arguments
| paramCountAtLeastOne
| paramCountExactlyOne.

(** The possible error messages. *)
Definition errorMessages (key : MessageIds) : string :=
  match key with
  | restParam =>
      "Unexpected rest parameter. Use a regular parameter of type array instead."
  | arguments =>
      "Unexpected use of `arguments`. Use regular function arguments instead."
  | paramCountAtLeastOne => "Functions must have at least one parameter."
  | paramCountExactlyOne => "Functions must have exactly one parameter."
  end.

(** Message keys are compared as the strings they are. *)
Definition MessageIds_eq_dec (a b : MessageIds) : {a = b} + {a <> b}.
Proof. decide equality. Defined.

(** [===] on the two count strings. *)
Definition ParameterCountOptions_eqb (a b : ParameterCountOptions) : bool :=
  match a, b with
  | atLeastOne, atLeastOne | exactlyOne, exactlyOne => true
  | _, _ => false
  end.

Section Handlers.

(** [IgnorePatternOption] is declared in [~/common/ignore-options] and the
    rule context belongs to the host: both are kept abstract. *)
Context {IgnorePatternOption RuleContext : Type}.

(** The options record:
    [IgnorePatternOption & { allowRestParameter, allowArgumentsKeyword,
    enforceParameterCount }]. *)
Record OptionsObject : Type := mkOptionsObject {
  ignorePatternOption : IgnorePatternOption;
  allowRestParameter : bool;
  allowArgumentsKeyword : bool;
  enforceParameterCount : EnforceParameterCount
}.

(** The options this rule can take: a tuple of one options record. *)
Inductive Options : Type :=
| Tuple (optionsObject : OptionsObject).

(** The imports of the module that are not among the sources:
    [shouldIgnorePattern] ([~/common/ignore-options]) and [isIIFE],
    [isPropertyAccess], [isPropertyName] ([~/util/tree]). *)
Variable shouldIgnorePattern :
  Node -> RuleContext -> OptionsObject -> bool.
Variable isIIFE : Node -> bool.
Variable isPropertyAccess : Node -> bool.
Variable isPropertyName : Node -> bool.

(** [node.params[node.params.length - 1]]; [None] stands for
    [undefined], which the callers exclude with [length > 0]. *)
Definition lastParam (node : FunctionNode) : option Node :=
  nth_error (params node) (length (params node) - 1).

(** Get the rest parameter violations. *)
Definition getRestParamViolations (options : Options) (node : FunctionNode)
    : list (Descriptor MessageIds) :=
  let '(Tuple o) := options in
  match lastParam node with
  | Some last =>
      if negb (allowRestParameter o)
         && (0 <? length (params node))
         && isRestElement last
      then [ {| node := last; messageId := restParam |} ]
      else []
  | None => []
  end.

(** [typeof enforceParameterCount === "object" &&
     enforceParameterCount.ignoreIIFE]. *)
Definition objectIgnoreIIFE (e : EnforceParameterCount) : bool :=
  match e with
  | EnforceObject _ ignoreIIFE => ignoreIIFE
  | _ => false
  end.

(** [enforceParameterCount === c ||
     (typeof enforceParameterCount === "object" &&
      enforceParameterCount.count === c)]. *)
Definition countIs (e : EnforceParameterCount) (c : ParameterCountOptions)
    : bool :=
  match e with
  | EnforceFalse => false
  | EnforceString value => ParameterCountOptions_eqb value c
  | EnforceObject count _ => ParameterCountOptions_eqb count c
  end.

(** [enforceParameterCount === false]. *)
Definition isFalse (e : EnforceParameterCount) : bool :=
  match e with
  | EnforceFalse => true
  | _ => false
  end.

(** Get the parameter count violations. *)
Definition getParamCountViolations (options : Options) (node : FunctionNode)
    : list (Descriptor MessageIds) :=
  let '(Tuple o) := options in
  let e := enforceParameterCount o in
  if isFalse e
     || ((length (params node) =? 0)
         && objectIgnoreIIFE e
         && isIIFE (ofFunction node))
  then []
  else if (length (params node) =? 0) && countIs e atLeastOne
  then [ {| node := ofFunction node; messageId := paramCountAtLeastOne |} ]
  else if negb (length (params node) =? 1) && countIs e exactlyOne
  then [ {| node := ofFunction node; messageId := paramCountExactlyOne |} ]
  else [].

(** Check if the given function node violates this rule. *)
Definition checkFunction (node : FunctionNode) (context : RuleContext)
    (options : Options) : RuleResult MessageIds RuleContext :=
  let '(Tuple optionsObject) := options in
  if shouldIgnorePattern (ofFunction node) context optionsObject
  then {| context := context; descriptors := [] |}
  else {| context := context;
          descriptors :=
            getRestParamViolations options node
            ++ getParamCountViolations options node |}.

(** Check if the given identifier is for the "arguments" keyword. *)
Definition checkIdentifier (node : IdentifierNode) (context : RuleContext)
    (options : Options) : RuleResult MessageIds RuleContext :=
  let '(Tuple optionsObject) := options in
  if shouldIgnorePattern (ofIdentifier node) context optionsObject
  then {| context := context; descriptors := [] |}
  else
    {| context := context;
       descriptors :=
         if negb (allowArgumentsKeyword optionsObject)
            && (TSESTree.name node =? "arguments")%string
            && negb (isPropertyName (ofIdentifier node))
            && negb (isPropertyAccess (ofIdentifier node))
         then [ {| node := ofIdentifier node; messageId := arguments |} ]
         else [] |}.

(** The default options for the rule; the defaults of the ignore options
    are those of [IgnorePatternOption] (none set). *)
Definition defaultOptions (noIgnore : IgnorePatternOption) : Options :=
  Tuple {| ignorePatternOption := noIgnore;
           allowRestParameter := false;
           allowArgumentsKeyword := false;
           enforceParameterCount := EnforceObject atLeastOne true |}.

End Handlers.

Arguments OptionsObject : clear implicits.
Arguments Options : clear implicits.

End FunctionalParameters.

(* ================================================================== *)
(** * The rule [no-promise-reject]                                     *)
(* ================================================================== *)

Module NoPromiseReject.
Import TSESTree Rule Typeguard.

(** The name of this rule. *)
Definition name : string := "no-promise-reject".

(** The keys of [errorMessages]. *)
Inductive MessageIds : Type :=
| generic.

(** The possible error messages. *)
Definition errorMessages (key : MessageIds) : string :=
  match key with
  | generic => "Unexpected reject, return an error instead."
  end.

(** The options this rule can take: [readonly [{}]]. *)
Definition Options : Type := unit.

(** The default options for the rule. *)
Definition defaultOptions : Options := tt.

Section Handlers.

Context {RuleContext : Type}.

(** Check if the given CallExpression violates this rule.  The chain of
    guards [isMemberExpression(node.callee) &&
    isIdentifier(node.callee.object) &&
    isIdentifier(node.callee.property) && ...] reads each field after the
    guard that narrows to it. *)
Definition checkCallExpression (node : CallExpressionNode)
    (context : RuleContext) : RuleResult MessageIds RuleContext :=
  {| context := context;
     descriptors :=
       match asMemberExpression (callee node) with
       | Some (object, property) =>
           match asIdentifier object, asIdentifier property with
           | Some object_name, Some property_name =>
               if (object_name =? "Promise")%string
                  && (property_name =? "reject")%string
               then [ {| node := ofCallExpression node;
                         messageId := generic |} ]
               else []
           | _, _ => []
           end
       | None => []
       end |}.

End Handlers.

End NoPromiseReject.

(* ================================================================== *)
(** * Raw configuration values and the option schema                   *)
(* ================================================================== *)

(** The raw user configuration: a JSON-compatible value (objects, arrays,
    strings, booleans, numbers).  A number is the rational its literal
    denotes; an object is the list of its members, and a member is read by
    its key, the first occurrence. *)
Module JSON.

Inductive value : Type :=
| Null
| Bool (b : bool)
| Number (n : Q)
| String (s : string)
| Array (items : list value)
| Object (members : list (string * value)).

(** [object[key]]. *)
Fixpoint lookup {A : Type} (key : string) (members : list (string * A))
    : option A :=
  match members with
  | [] => None
  | (k, x) :: rest => if (k =? key)%string then Some x else lookup key rest
  end.

(** [key in object]. *)
Definition hasKey {A : Type} (key : string) (members : list (string * A))
    : bool :=
  match lookup key members with
  | Some _ => true
  | None => false
  end.

(** Deep equality of two values, as [enum] compares them. *)
Fixpoint eqb (a b : value) {struct a} : bool :=
  match a, b with
  | Null, Null => true
  | Bool x, Bool y => Bool.eqb x y
  | Number x, Number y => Qeq_bool x y
  | String x, String y => String.eqb x y
  | Array xs, Array ys =>
      (fix items (xs ys : list value) {struct xs} : bool :=
         match xs, ys with
         | [], [] => true
         | x :: xs', y :: ys' => eqb x y && items xs' ys'
         | _, _ => false
         end) xs ys
  | Object xs, Object ys =>
      (fix members (xs ys : list (string * value)) {struct xs} : bool :=
         match xs, ys with
         | [], [] => true
         | (k, x) :: xs', (l, y) :: ys' =>
             String.eqb k l && eqb x y && members xs' ys'
         | _, _ => false
         end) xs ys
  | _, _ => false
  end.

End JSON.

Module JSONSchema4.
Import JSON.

(** The [type] keyword's names. *)
Inductive TypeName : Type :=
| TNull
| TBoolean
| TNumber
| TString
| TArray
| TObject.

(** A schema, with the keywords the rule's schema is written in; an absent
    keyword is [None] and constrains nothing. *)
Inductive Schema : Type :=
| mkSchema (type : option TypeName)
           (enum : option (list value))
           (oneOf : option (list Schema))
           (properties : option (list (string * Schema)))
           (additionalProperties : option bool).

(** Modelled from the spec: part of the validator, which is not among the
    sources; a value "failing its declared type" (4.1) is one whose kind is
    not the one [type] names. *)
Definition hasType (t : TypeName) (v : value) : bool :=
  match t, v with
  | TNull, Null
  | TBoolean, Bool _
  | TNumber, Number _
  | TString, String _
  | TArray, Array _
  | TObject, Object _ => true
  | _, _ => false
  end.

(** Modelled from the spec: the validator of raw configuration against a
    rule's published schema is not among the sources (the host runs it);
    the schema is "JSON-Schema-compatible: object/array/string/boolean/
    enum/oneOf" (6) and validation fails on "a key absent from the schema,
    or a value failing its declared type/enum" (4.1), a union being
    "validated against exactly one of the alternatives".  Each keyword
    present must hold: [type] names the value's type, [enum] lists a value
    equal to it, exactly one [oneOf] alternative validates it, each member
    of an object that [properties] declares validates against its
    declaration, and with [additionalProperties: false] an object has no
    member [properties] does not declare. *)
Fixpoint validate (s : Schema) (v : value) {struct s} : bool :=
  match s with
  | mkSchema type enum oneOf properties additionalProperties =>
      match type with
      | Some t => hasType t v
      | None => true
      end
      && match enum with
         | Some allowed => existsb (eqb v) allowed
         | None => true
         end
      && match oneOf with
         | Some alternatives =>
             (fix matching (l : list Schema) : nat :=
                match l with
                | [] => 0
                | alternative :: rest =>
                    (if validate alternative v then 1 else 0)
                    + matching rest
                end) alternatives =? 1
         | None => true
         end
      && match v with
         | Object members =>
             match properties with
             | Some declared =>
                 (fix each (l : list (string * Schema)) : bool :=
                    match l with
                    | [] => true
                    | (key, declaration) :: rest =>
                        match lookup key members with
                        | Some x => validate declaration x
                        | None => true
                        end
                        && each rest
                    end) declared
             | None => true
             end
             && match additionalProperties with
                | Some false =>
                    forallb
                      (fun member =>
                         hasKey (fst member)
                           match properties with
                           | Some declared => declared
                           | None => []
                           end)
                      members
                | _ => true
                end
         | _ => true
         end
  end.

(** Modelled from the spec: what a failed validation is reported as is not
    among the sources; "a configuration error must identify the offending
    rule name and the invalid option path" (7). *)
Record ConfigurationError : Type := mkConfigurationError {
  ruleName : string;
  optionPath : string
}.

(** Modelled from the spec: the check of one option of a rule, made once
    when the rule is activated (4.1); the handlers are given no way to
    fail. *)
Definition checkOption (rule path : string) (s : Schema) (v : value)
    : option ConfigurationError :=
  if validate s v then None
  else Some {| ruleName := rule; optionPath := path |}.

End JSONSchema4.

(** The schema for the rule options of [functional-parameters]. *)
Module FunctionalParametersSchema.
Import JSON JSONSchema4.

Definition boolean : Schema :=
  mkSchema (Some TBoolean) None None None None.

Definition parameterCount : Schema :=
  mkSchema (Some TString)
           (Some [String "atLeastOne"; String "exactlyOne"])
           None None None.

(** The declaration of the property [enforceParameterCount]. *)
Definition enforceParameterCount : Schema :=
  mkSchema None None
    (Some
       [ mkSchema (Some TBoolean) (Some [Bool false]) None None None;
         mkSchema (Some TString)
                  (Some [String "atLeastOne"; String "exactlyOne"])
                  None None None;
         mkSchema (Some TObject) None None
                  (Some [ ("count", parameterCount);
                          ("ignoreIIFE", boolean) ])
                  (Some false) ])
    None None.

(** The properties the rule adds to those of [ignorePatternOptionSchema]
    (the second argument of [deepmerge]). *)
Definition ruleProperties : list (string * Schema) :=
  [ ("allowRestParameter", boolean);
    ("allowArgumentsKeyword", boolean);
    ("enforceParameterCount", enforceParameterCount) ].

(** The check of a raw [enforceParameterCount] value at activation. *)
Definition checkEnforceParameterCount (v : value)
    : option ConfigurationError :=
  checkOption FunctionalParameters.name "enforceParameterCount"
              enforceParameterCount v.

(** The four alternatives of the option's declared type
    ["atLeastOne" | "exactlyOne" | false | { count, ignoreIIFE }], as raw
    values. *)
Definition rawParameterCount (c : FunctionalParameters.ParameterCountOptions)
    : value :=
  match c with
  | FunctionalParameters.atLeastOne => String "atLeastOne"
  | FunctionalParameters.exactlyOne => String "exactlyOne"
  end.

Definition raw (e : FunctionalParameters.EnforceParameterCount) : value :=
  match e with
  | FunctionalParameters.EnforceFalse => Bool false
  | FunctionalParameters.EnforceString c => rawParameterCount c
  | FunctionalParameters.EnforceObject c b =>
      Object [ ("count", rawParameterCount c); ("ignoreIIFE", Bool b) ]
  end.

(** The keys of the object shape. *)
Definition onlyDeclaredKeys (members : list (string * value)) : Prop :=
  forall member, In member members ->
                 fst member = "count" \/ fst member = "ignoreIIFE".

(** A raw value has one of the four declared shapes: [false], one of the
    two strings, or an object with the fields [count] (one of the two
    strings) and [ignoreIIFE] (a boolean) and no other. *)
Definition declaredShape (v : value) : Prop :=
  v = Bool false
  \/ v = String "atLeastOne"
  \/ v = String "exactlyOne"
  \/ exists members c b,
       v = Object members
       /\ lookup "count" members = Some (rawParameterCount c)
       /\ lookup "ignoreIIFE" members = Some (Bool b)
       /\ onlyDeclaredKeys members.

(** An object of the fourth shape with fields left out: it has no key but
    [count] and [ignoreIIFE]; [count], where present, is one of the two
    strings, and [ignoreIIFE], where present, a boolean. *)
Definition partialObject (members : list (string * value)) : Prop :=
  onlyDeclaredKeys members
  /\ (forall x, lookup "count" members = Some x ->
                x = String "atLeastOne" \/ x = String "exactlyOne")
  /\ (forall x, lookup "ignoreIIFE" members = Some x -> exists b, x = Bool b).

(** The raw values the schema lets through, spelled out. *)
Definition admitted (v : value) : Prop :=
  v = Bool false
  \/ v = String "atLeastOne"
  \/ v = String "exactlyOne"
  \/ exists members, v = Object members /\ partialObject members.

End FunctionalParametersSchema.

(* ================================================================== *)
(** * The imported utilities, modelled                                 *)
(* ================================================================== *)

(** [~/util/tree]. *)
Module Tree.
Import TSESTree.

Definition parentIs (t : AST_NODE_TYPES.t) (field : string) (node : Node)
    : bool :=
  match parent node with
  | Some link =>
      AST_NODE_TYPES.eqb (parent_type link) t
      && (parent_field link =? field)%string
  | None => false
  end.

Definition isFunctionLike (node : Node) : bool :=
  match shape node with
  | FunctionDeclaration _ _ _
  | FunctionExpression _ _ _
  | ArrowFunctionExpression _ _ => true
  | _ => false
  end.

(** Modelled from the spec: [~/util/tree] is not among the sources; "is
    this node the callee of an immediately-invoked function" (4.3), read
    off the immediate parent: the node is a function and sits in the
    [callee] field of a call expression. *)
Definition isIIFE (node : Node) : bool :=
  isFunctionLike node
  && parentIs AST_NODE_TYPES.CallExpression "callee" node.

(** Modelled from the spec: [~/util/tree] is not among the sources; "is
    this identifier used as a property key rather than a value", "defined
    purely in terms of the immediate parent node's shape and the
    identifier's position within it (key vs. value slot)" (4.3). *)
Definition isPropertyName (node : Node) : bool :=
  parentIs AST_NODE_TYPES.Property "key" node.

(** Modelled from the spec: [~/util/tree] is not among the sources; the
    node is the [property] of a member access, again by the immediate
    parent and the position in it (4.3). *)
Definition isPropertyAccess (node : Node) : bool :=
  parentIs AST_NODE_TYPES.MemberExpression "property" node.

End Tree.

(** [~/common/ignore-options]. *)
Module IgnoreOptions.
Import TSESTree.

(** Modelled from the spec: [IgnorePatternOption] is declared outside the
    sources; one ignore specification is a literal name, a pattern
    expression (given here by the names that satisfy it) or a file-path
    matcher (3, 4.2). *)
Inductive PatternEntry : Type :=
| LiteralName (text : string)
| PatternExpression (satisfies : string -> bool)
| FilePathMatcher (satisfies : string -> bool).

(** "Absence means ignore nothing": no entries. *)
Definition IgnorePatternOption : Type := list PatternEntry.

(** The part of the host's context the matcher reads. *)
Record RuleContext : Type := mkRuleContext {
  filename : string
}.

(** Modelled from the spec: the name string derived for a node, "its bound
    name, or a property/member path" (3): identifier text, the dotted path
    of a property access, the bound name of a function; [None] when no name
    can be derived (4.2). *)
Fixpoint derivedName (node : Node) : option string :=
  match node with
  | mkNode _ (Identifier text) => Some text
  | mkNode _ (MemberExpression object property _) =>
      match derivedName object, derivedName property with
      | Some o, Some p => Some (o ++ "." ++ p)%string
      | _, _ => None
      end
  | mkNode _ (FunctionDeclaration (Some id) _ _)
  | mkNode _ (FunctionExpression (Some id) _ _) => derivedName id
  | _ => None
  end.

Definition entryMatches (node : Node) (context : RuleContext)
    (entry : PatternEntry) : bool :=
  match entry with
  | LiteralName text =>
      match derivedName node with
      | Some n => (n =? text)%string
      | None => false
      end
  | PatternExpression satisfies =>
      match derivedName node with
      | Some n => satisfies n
      | None => false
      end
  | FilePathMatcher satisfies => satisfies (filename context)
  end.

(** Modelled from the spec: [~/common/ignore-options] is not among the
    sources; [shouldIgnore(node, context, options)] "returns true (ignore)
    if any configured pattern matches; false if the pattern list is empty
    or no entry matches", an entry matching as a literal equal to the
    derived name, a pattern expression the derived name satisfies, or a
    file-path matcher the context's file path satisfies (4.2). *)
Definition shouldIgnore (node : Node) (context : RuleContext)
    (options : IgnorePatternOption) : bool :=
  existsb (entryMatches node context) options.

(** [shouldIgnorePattern] at the options record of
    [functional-parameters]. *)
Definition shouldIgnorePattern (node : Node) (context : RuleContext)
    (options : FunctionalParameters.OptionsObject IgnorePatternOption)
    : bool :=
  shouldIgnore node context (FunctionalParameters.ignorePatternOption options).

End IgnoreOptions.

(** Sample trees the statements below are run on. *)
Module Samples.
Import TSESTree.

Definition ident (p : option ParentLink) (text : string) : Node :=
  mkNode p (Identifier text).

Definition block (t : AST_NODE_TYPES.t) : Node :=
  mkNode (Some (ChildOf t "body")) (BlockStatement []).

Definition inParams (t : AST_NODE_TYPES.t) : option ParentLink :=
  Some (ChildOf t "params").

(** [function f() {}] at the top of a program. *)
Definition declaration_f (ps : list Node) : FunctionNode :=
  {| fn_parent := Some (ChildOf (AST_NODE_TYPES.OtherType "Program") "body");
     fn_type := IsFunctionDeclaration;
     fn_id := Some (ident (Some (ChildOf AST_NODE_TYPES.FunctionDeclaration "id")) "f");
     params := ps;
     fn_body := block AST_NODE_TYPES.FunctionDeclaration |}.

(** The function of [(function () {})()], and with parameters. *)
Definition invoked (ps : list Node) : FunctionNode :=
  {| fn_parent := Some (ChildOf AST_NODE_TYPES.CallExpression "callee");
     fn_type := IsFunctionExpression;
     fn_id := None;
     params := ps;
     fn_body := block AST_NODE_TYPES.FunctionExpression |}.

(** The parameters [a] and [...rest] of a function of type [t]. *)
Definition param_a (t : AST_NODE_TYPES.t) : Node :=
  ident (inParams t) "a".

Definition param_rest (t : AST_NODE_TYPES.t) : Node :=
  mkNode (inParams t)
    (RestElement
       (ident (Some (ChildOf AST_NODE_TYPES.RestElement "argument")) "rest")).

(** [o.m] as the callee of a call. *)
Definition member (o m : string) (computed : bool) : Node :=
  mkNode (Some (ChildOf AST_NODE_TYPES.CallExpression "callee"))
    (MemberExpression
       (ident (Some (ChildOf AST_NODE_TYPES.MemberExpression "object")) o)
       (ident (Some (ChildOf AST_NODE_TYPES.MemberExpression "property")) m)
       computed).

Definition call (callee : Node) (args : list Node) : CallExpressionNode :=
  {| call_parent :=
       Some (ChildOf (AST_NODE_TYPES.OtherType "ExpressionStatement")
                     "expression");
     callee := callee;
     arguments := args |}.

Definition options (allowRest : bool)
    (e : FunctionalParameters.EnforceParameterCount)
    (ignore : IgnoreOptions.IgnorePatternOption)
    : FunctionalParameters.Options IgnoreOptions.IgnorePatternOption :=
  FunctionalParameters.Tuple
    {| FunctionalParameters.ignorePatternOption := ignore;
       FunctionalParameters.allowRestParameter := allowRest;
       FunctionalParameters.allowArgumentsKeyword := false;
       FunctionalParameters.enforceParameterCount := e |}.

Definition context : IgnoreOptions.RuleContext :=
  {| IgnoreOptions.filename := "src/index.ts" |}.

End Samples.

(* ================================================================== *)
(** * [getParamCountViolations] on the values the code is run on        *)
(* ================================================================== *)

(** The same function before the option's declared type is trusted: the
    value of [enforceParameterCount] is whatever configuration value the
    handler is given, and the tests of the source are JavaScript's. *)
Module Untyped.
Import TSESTree Rule JSON FunctionalParameters.

(** Reading a property of [null] throws. *)
Inductive TypeError : Type :=
| CannotReadPropertiesOfNull (property : string).

(** A computation that returns or throws. *)
Definition Completion (A : Type) : Type := (TypeError + A)%type.

Definition ret {A : Type} (x : A) : Completion A := inr x.

Definition bind {A B : Type} (c : Completion A) (k : A -> Completion B)
    : Completion B :=
  match c with
  | inl e => inl e
  | inr x => k x
  end.

Notation "x <- c ;; k" := (bind c (fun x => k))
  (at level 61, c at next level, right associativity).

(** [a && b], [b] evaluated only when [a] holds. *)
Definition andThen (a : bool) (b : Completion bool) : Completion bool :=
  if a then b else ret false.

(** [a || b], [b] evaluated only when [a] fails. *)
Definition orElse (a : bool) (b : Completion bool) : Completion bool :=
  if a then ret true else b.

(** [typeof v === "object"]: objects, arrays and [null]. *)
Definition typeofObject (v : value) : bool :=
  match v with
  | Null | Array _ | Object _ => true
  | _ => false
  end.

(** [v.count] and [v.ignoreIIFE]: a member of an object, [undefined]
    ([None]) where the object has none and on arrays, strings, numbers and
    booleans, which have neither property; a [TypeError] on [null]. *)
Definition get (v : value) (property : string)
    : Completion (option value) :=
  match v with
  | Null => inl (CannotReadPropertiesOfNull property)
  | Object members => ret (lookup property members)
  | _ => ret None
  end.

(** The truth value a condition takes a value for: [undefined], [null],
    [false], [0] and the empty string count as false. *)
Definition truthy (v : option value) : bool :=
  match v with
  | None | Some Null => false
  | Some (Bool b) => b
  | Some (Number n) => negb (Qeq_bool n 0)
  | Some (String s) => negb (s =? "")%string
  | Some (Array _) | Some (Object _) => true
  end.

(** [v === "text"]. *)
Definition isString (v : option value) (text : string) : bool :=
  match v with
  | Some (String s) => (s =? text)%string
  | _ => false
  end.

(** [v === false]. *)
Definition isFalse (v : value) : bool :=
  match v with
  | Bool false => true
  | _ => false
  end.

Section Detector.

Variable isIIFE : Node -> bool.

(** [enforceParameterCount === text ||
     (typeof enforceParameterCount === "object" &&
      enforceParameterCount.count === text)]. *)
Definition countIs (enforceParameterCount : value) (text : string)
    : Completion bool :=
  orElse (isString (Some enforceParameterCount) text)
    (andThen (typeofObject enforceParameterCount)
       (count <- get enforceParameterCount "count" ;;
        ret (isString count text))).

(** Get the parameter count violations. *)
Definition getParamCountViolations (enforceParameterCount : value)
    (node : FunctionNode) : Completion (list (Descriptor MessageIds)) :=
  exempt <-
    orElse (isFalse enforceParameterCount)
      (andThen (length (params node) =? 0)
         (andThen (typeofObject enforceParameterCount)
            (ignoreIIFE <- get enforceParameterCount "ignoreIIFE" ;;
             ret (truthy ignoreIIFE && isIIFE (ofFunction node))))) ;;
  if exempt then ret []
  else
    none <-
      andThen (length (params node) =? 0)
        (countIs enforceParameterCount "atLeastOne") ;;
    if none
    then ret [ {| node := ofFunction node;
                  messageId := paramCountAtLeastOne |} ]
    else
      notOne <-
        andThen (negb (length (params node) =? 1))
          (countIs enforceParameterCount "exactlyOne") ;;
      if notOne
      then ret [ {| node := ofFunction node;
                    messageId := paramCountExactlyOne |} ]
      else ret [].

End Detector.

End Untyped.

(** Selecting descriptors by key. *)
Module Reports.
Import Rule FunctionalParameters.

(** [d] is a [restParam] descriptor. *)
Definition isRestParam (d : Descriptor MessageIds) : bool :=
  if MessageIds_eq_dec (messageId d) restParam then true else false.

End Reports.

(* ================================================================== *)
(** * Activation of [functional-parameters]                            *)
(* ================================================================== *)

(** One analysis session of the rule: the configuration is checked, then
    the handlers registered with [createRule] are run on the nodes the host
    visits, with the options as they were configured. *)
Module Activation.
Import TSESTree Rule Typeguard JSON JSONSchema4.

Section Rule.

Context {IgnorePatternOption RuleContext : Type}.

(** The options record as a handler receives it: [enforceParameterCount]
    is the configured value, whatever it is. *)
Record Options : Type := mkOptions {
  ignorePatternOption : IgnorePatternOption;
  allowRestParameter : bool;
  allowArgumentsKeyword : bool;
  enforceParameterCount : value
}.

Variable shouldIgnorePattern : Node -> RuleContext -> Options -> bool.
Variable isIIFE : Node -> bool.
Variable isPropertyAccess : Node -> bool.
Variable isPropertyName : Node -> bool.

Local Abbreviation MessageIds := FunctionalParameters.MessageIds.
Local Abbreviation Result :=
  (Untyped.Completion (RuleResult MessageIds RuleContext)).

(** Get the rest parameter violations. *)
Definition getRestParamViolations (options : Options) (node : FunctionNode)
    : list (Descriptor MessageIds) :=
  match FunctionalParameters.lastParam node with
  | Some last =>
      if negb (allowRestParameter options)
         && (0 <? length (params node))
         && isRestElement last
      then [ {| node := last; messageId := FunctionalParameters.restParam |} ]
      else []
  | None => []
  end.

(** Check if the given function node violates this rule; the parameter
    count is tested as the source tests it, on the configured value. *)
Definition checkFunction (node : FunctionNode) (context : RuleContext)
    (options : Options) : Result :=
  if shouldIgnorePattern (ofFunction node) context options
  then Untyped.ret {| context := context; descriptors := [] |}
  else
    Untyped.bind
      (Untyped.getParamCountViolations isIIFE
         (enforceParameterCount options) node)
      (fun counted =>
         Untyped.ret
           {| context := context;
              descriptors := getRestParamViolations options node ++ counted |}).

(** Check if the given identifier is for the "arguments" keyword. *)
Definition checkIdentifier (node : IdentifierNode) (context : RuleContext)
    (options : Options) : Result :=
  if shouldIgnorePattern (ofIdentifier node) context options
  then Untyped.ret {| context := context; descriptors := [] |}
  else
    Untyped.ret
      {| context := context;
         descriptors :=
           if negb (allowArgumentsKeyword options)
              && (TSESTree.name node =? "arguments")%string
              && negb (isPropertyName (ofIdentifier node))
              && negb (isPropertyAccess (ofIdentifier node))
           then [ {| node := ofIdentifier node;
                     messageId := FunctionalParameters.arguments |} ]
           else [] |}.

(** A node the host visits that the rule has a handler for. *)
Inductive Visit : Type :=
| VisitFunction (node : FunctionNode)
| VisitIdentifier (node : IdentifierNode).

(** The handlers the rule is created with: [checkFunction] for the three
    function types, [checkIdentifier] for identifiers. *)
Definition handle (context : RuleContext) (options : Options) (v : Visit)
    : Result :=
  match v with
  | VisitFunction node => checkFunction node context options
  | VisitIdentifier node => checkIdentifier node context options
  end.

(** What happens in a session, in order. *)
Inductive Event : Type :=
| OptionChecked
| Handled (v : Visit).

(** A session: what happened, and what came of it: a configuration error,
    or the result of each handler call. *)
Record Session : Type := mkSession {
  events : list Event;
  outcome : ConfigurationError + list Result
}.

(** Modelled from the spec: the rule wrapper ([createRule] of
    [~/util/rule]) and the activation of a rule by the host are not among
    the sources.  An invalid option value is "detected once at
    rule-activation time, never per node" (4.1); the error is "surfaced
    immediately at rule activation" and "analysis of the affected rule must
    not proceed" (7); otherwise "the wrapper binds resolvedOptions once ...
    so every handler invocation within one file-analysis session observes
    the same options value" (4.4), a user value replacing the default
    whole (4.1).  So: the configured [enforceParameterCount] is checked
    against its declaration; on failure the session ends there with the
    error; otherwise each visited node is handled, in order, with the
    options as configured. *)
Definition analyse (options : Options) (context : RuleContext)
    (visited : list Visit) : Session :=
  match
    FunctionalParametersSchema.checkEnforceParameterCount
      (enforceParameterCount options)
  with
  | Some error => {| events := [ OptionChecked ]; outcome := inl error |}
  | None =>
      {| events := OptionChecked :: map Handled visited;
         outcome := inr (map (handle context options) visited) |}
  end.

(** The event is a check of the option. *)
Definition isCheck (e : Event) : bool :=
  match e with
  | OptionChecked => true
  | Handled _ => false
  end.

End Rule.

Arguments Options : clear implicits.
Arguments Session : clear implicits.

End Activation.

(* ================================================================== *)
(** * Properties of [functional-parameters]                            *)
(* ================================================================== *)

Module FunctionalParametersFacts.
Import TSESTree Rule Typeguard FunctionalParameters.

Section Handlers.

Context {IgnorePatternOption RuleContext : Type}.
Variable shouldIgnorePattern :
  Node -> RuleContext -> OptionsObject IgnorePatternOption -> bool.
Variable isIIFE : Node -> bool.
Variable isPropertyAccess : Node -> bool.
Variable isPropertyName : Node -> bool.

Local Abbreviation checkFunction :=
  (FunctionalParameters.checkFunction shouldIgnorePattern isIIFE).
Local Abbreviation checkIdentifier :=
  (FunctionalParameters.checkIdentifier
     shouldIgnorePattern isPropertyAccess isPropertyName).
Local Abbreviation getParamCountViolations :=
  (FunctionalParameters.getParamCountViolations
     (IgnorePatternOption := IgnorePatternOption) isIIFE).
Local Abbreviation getRestParamViolations :=
  (FunctionalParameters.getRestParamViolations
     (IgnorePatternOption := IgnorePatternOption)).

#[local] Set Default Proof Using "Type".

Implicit Types (fn : FunctionNode) (id : IdentifierNode)
         (o : OptionsObject IgnorePatternOption) (ctx : RuleContext).

(** ** The detectors, one by one *)

Lemma lastParam_snoc fn front last :
  params fn = front ++ [last] -> lastParam fn = Some last.
Proof.
  unfold lastParam. intros ->.
  rewrite length_app, Nat.add_sub. simpl.
  rewrite nth_error_app2 by lia. now rewrite Nat.sub_diag.
Qed.

Lemma lastParam_nil fn : params fn = [] -> lastParam fn = None.
Proof. unfold lastParam. now intros ->. Qed.

Lemma lastParam_Some fn last :
  lastParam fn = Some last -> 0 < length (params fn).
Proof.
  unfold lastParam. destruct (params fn); simpl; [discriminate | lia].
Qed.

(** The rest detector reports nothing or the last parameter. *)
Lemma getRestParamViolations_cases o fn :
  getRestParamViolations (Tuple o) fn = []
  \/ exists last,
       lastParam fn = Some last
       /\ getRestParamViolations (Tuple o) fn
          = [ {| node := last; messageId := restParam |} ].
Proof.
  unfold FunctionalParameters.getRestParamViolations.
  destruct (lastParam fn) as [last|]; [|now left].
  destruct (_ && _); [right; now exists last | now left].
Qed.

(** When it fires: rest parameters not allowed and the last parameter a
    rest element. *)
Lemma getRestParamViolations_fires o fn last :
  allowRestParameter o = false ->
  lastParam fn = Some last ->
  isRestElement last = true ->
  getRestParamViolations (Tuple o) fn
  = [ {| node := last; messageId := restParam |} ].
Proof.
  intros Hallow Hlast Hrest.
  unfold FunctionalParameters.getRestParamViolations.
  rewrite Hlast, Hallow, Hrest.
  apply lastParam_Some, Nat.ltb_lt in Hlast. now rewrite Hlast.
Qed.

(** The count detector reports nothing or the function itself, under one
    of the two count keys. *)
Lemma getParamCountViolations_cases o fn :
  getParamCountViolations (Tuple o) fn = []
  \/ getParamCountViolations (Tuple o) fn
     = [ {| node := ofFunction fn; messageId := paramCountAtLeastOne |} ]
  \/ getParamCountViolations (Tuple o) fn
     = [ {| node := ofFunction fn; messageId := paramCountExactlyOne |} ].
Proof.
  unfold FunctionalParameters.getParamCountViolations.
  destruct (_ || _); [now left|].
  destruct (_ && _); [right; now left|].
  destruct (_ && _); [right; now right | now left].
Qed.

Lemma getParamCountViolations_length o fn :
  length (getParamCountViolations (Tuple o) fn) <= 1.
Proof.
  destruct (getParamCountViolations_cases o fn) as [-> | [-> | ->]];
    simpl; lia.
Qed.

(** Membership in a literal list, member by member. *)
Ltac members :=
  simpl;
  let H := fresh "H" in
  intros H;
  repeat (destruct H as [H | H]; [rewrite <- H; simpl; auto|]);
  try contradiction.

Lemma getParamCountViolations_keys o fn d :
  In d (getParamCountViolations (Tuple o) fn) ->
  messageId d = paramCountAtLeastOne \/ messageId d = paramCountExactlyOne.
Proof.
  destruct (getParamCountViolations_cases o fn) as [-> | [-> | ->]];
    members.
Qed.

Lemma getRestParamViolations_keys o fn d :
  In d (getRestParamViolations (Tuple o) fn) -> messageId d = restParam.
Proof.
  destruct (getRestParamViolations_cases o fn) as [-> | (last & _ & ->)];
    members.
Qed.

(** A function that is not ignored gets the two detectors' reports. *)
Lemma checkFunction_not_ignored fn ctx o :
  shouldIgnorePattern (ofFunction fn) ctx o = false ->
  descriptors (checkFunction fn ctx (Tuple o))
  = getRestParamViolations (Tuple o) fn
    ++ getParamCountViolations (Tuple o) fn.
Proof.
  intros H. unfold FunctionalParameters.checkFunction. now rewrite H.
Qed.

(** ** The claims *)

(** C1.  Ignore short-circuit: whenever [shouldIgnorePattern] holds of the
    node, [checkFunction] and [checkIdentifier] return a result with no
    descriptor, whatever the options, the detectors and the tree
    predicates would report for that node. *)
Theorem ignore_short_circuit ctx o :
  (forall fn,
      shouldIgnorePattern (ofFunction fn) ctx o = true ->
      checkFunction fn ctx (Tuple o)
      = {| context := ctx; descriptors := [] |})
  /\ (forall id,
         shouldIgnorePattern (ofIdentifier id) ctx o = true ->
         checkIdentifier id ctx (Tuple o)
         = {| context := ctx; descriptors := [] |}).
Proof.
  split; intros n H.
  - unfold FunctionalParameters.checkFunction. now rewrite H.
  - unfold FunctionalParameters.checkIdentifier. now rewrite H.
Qed.

(** C2.  Scenario A: with [enforceParameterCount = "atLeastOne"] and the
    node not ignored, a function with no parameter that is not the callee
    of an immediately-invoked call gets exactly one descriptor, whose
    key is [paramCountAtLeastOne]. *)
Theorem atLeastOne_reports_no_parameter fn ctx o :
  enforceParameterCount o = EnforceString atLeastOne ->
  shouldIgnorePattern (ofFunction fn) ctx o = false ->
  params fn = [] ->
  isIIFE (ofFunction fn) = false ->
  descriptors (checkFunction fn ctx (Tuple o))
  = [ {| node := ofFunction fn; messageId := paramCountAtLeastOne |} ].
Proof.
  intros He Hignore Hparams Hiife.
  rewrite (checkFunction_not_ignored _ _ _ Hignore).
  unfold FunctionalParameters.getRestParamViolations.
  rewrite (lastParam_nil _ Hparams).
  unfold FunctionalParameters.getParamCountViolations.
  now rewrite He, Hparams, Hiife.
Qed.

(** C3.  Scenario B: with a count of [atLeastOne] and [ignoreIIFE = true],
    a function with no parameter that is the callee of an
    immediately-invoked call gets no descriptor. *)
Theorem ignoreIIFE_exempts_no_parameter fn ctx o :
  enforceParameterCount o = EnforceObject atLeastOne true ->
  params fn = [] ->
  isIIFE (ofFunction fn) = true ->
  descriptors (checkFunction fn ctx (Tuple o)) = [].
Proof.
  intros He Hparams Hiife.
  unfold FunctionalParameters.checkFunction.
  destruct (shouldIgnorePattern _ _ _); [reflexivity|]. simpl.
  unfold FunctionalParameters.getRestParamViolations.
  rewrite (lastParam_nil _ Hparams).
  unfold FunctionalParameters.getParamCountViolations.
  now rewrite He, Hparams, Hiife.
Qed.

(** C4.  Scenario C: with [allowRestParameter = false] and the node not
    ignored, a function whose last parameter is a rest element gets the
    descriptor [restParam] for that parameter, once and first, whatever
    [enforceParameterCount] is; the parameter-count descriptors follow
    it, so the result has two descriptors when the count detector fires
    too and one when it does not. *)
Theorem rest_parameter_reported fn ctx o front last :
  allowRestParameter o = false ->
  shouldIgnorePattern (ofFunction fn) ctx o = false ->
  params fn = front ++ [last] ->
  isRestElement last = true ->
  let reported := descriptors (checkFunction fn ctx (Tuple o)) in
  reported
  = {| node := last; messageId := restParam |}
      :: getParamCountViolations (Tuple o) fn
  /\ count_occ MessageIds_eq_dec (map messageId reported) restParam = 1
  /\ (getParamCountViolations (Tuple o) fn = [] -> length reported = 1)
  /\ (getParamCountViolations (Tuple o) fn <> [] -> length reported = 2).
Proof.
  intros Hallow Hignore Hparams Hrest reported. subst reported.
  rewrite (checkFunction_not_ignored _ _ _ Hignore).
  rewrite (getRestParamViolations_fires _ _ _ Hallow
             (lastParam_snoc _ _ _ Hparams) Hrest).
  destruct (getParamCountViolations_cases o fn) as [E | [E | E]];
    rewrite E; simpl; repeat split; try reflexivity;
    intros H; try discriminate H; try reflexivity; now contradiction H.
Qed.

(** C6.  Detector order: for a function that is not ignored, the
    descriptors of [checkFunction] are those of [getRestParamViolations]
    followed by those of [getParamCountViolations]; so a [restParam]
    descriptor comes before any parameter-count descriptor of the same
    result. *)
Theorem detectors_in_declared_order fn ctx o :
  shouldIgnorePattern (ofFunction fn) ctx o = false ->
  let reported := descriptors (checkFunction fn ctx (Tuple o)) in
  reported
  = getRestParamViolations (Tuple o) fn
    ++ getParamCountViolations (Tuple o) fn
  /\ forall i j di dj,
       nth_error reported i = Some di ->
       nth_error reported j = Some dj ->
       messageId di = restParam ->
       (messageId dj = paramCountAtLeastOne
        \/ messageId dj = paramCountExactlyOne) ->
       i < j.
Proof.
  intros Hignore reported. subst reported.
  rewrite (checkFunction_not_ignored _ _ _ Hignore).
  split; [reflexivity|].
  intros i j di dj Hi Hj Hrest Hcount.
  set (rest := getRestParamViolations (Tuple o) fn) in Hi, Hj |- *.
  destruct (Nat.lt_ge_cases i (length rest)) as [Hil | Hil].
  - destruct (Nat.lt_ge_cases j (length rest)) as [Hjl | Hjl]; [|lia].
    rewrite nth_error_app1 in Hj by assumption.
    apply nth_error_In, getRestParamViolations_keys in Hj.
    rewrite Hj in Hcount. destruct Hcount; discriminate.
  - rewrite nth_error_app2 in Hi by assumption.
    apply nth_error_In, getParamCountViolations_keys in Hi.
    rewrite Hrest in Hi. destruct Hi; discriminate.
Qed.

(** C9.  The [ignoreIIFE] exemption is for functions without parameters
    only.  For a function with one parameter or more, the object form
    [{ count, ignoreIIFE }] decides as the plain [count] does, whatever
    [ignoreIIFE] and [isIIFE] are; so under a count of [exactlyOne] a
    function with two parameters or more gets the descriptor
    [paramCountExactlyOne] from [getParamCountViolations], and from
    [checkFunction] when it is not ignored, also as the callee of an
    immediately-invoked call. *)
Theorem ignoreIIFE_only_without_parameters fn ctx ignore allowRest allowArgs
    c b :
  let options e :=
    {| ignorePatternOption := ignore;
       allowRestParameter := allowRest;
       allowArgumentsKeyword := allowArgs;
       enforceParameterCount := e |} in
  let violation :=
    {| node := ofFunction fn; messageId := paramCountExactlyOne |} in
  (1 <= length (params fn) ->
   getParamCountViolations (Tuple (options (EnforceObject c b))) fn
   = getParamCountViolations (Tuple (options (EnforceString c))) fn)
  /\ (2 <= length (params fn) ->
      getParamCountViolations
        (Tuple (options (EnforceObject exactlyOne b))) fn
      = [ violation ])
  /\ (2 <= length (params fn) ->
      shouldIgnorePattern (ofFunction fn) ctx
        (options (EnforceObject exactlyOne b)) = false ->
      In violation
         (descriptors
            (checkFunction fn ctx
               (Tuple (options (EnforceObject exactlyOne b)))))).
Proof.
  intros options violation.
  assert (Hcount : 2 <= length (params fn) ->
            getParamCountViolations
              (Tuple (options (EnforceObject exactlyOne b))) fn
            = [ violation ]).
  { intros Hlen. unfold FunctionalParameters.getParamCountViolations.
    simpl.
    destruct (length (params fn)) as [|[|n]] eqn:E; [lia | lia |].
    reflexivity. }
  repeat split.
  - intros Hlen. unfold FunctionalParameters.getParamCountViolations.
    simpl.
    destruct (length (params fn)) as [|n] eqn:E; [lia|]. reflexivity.
  - exact Hcount.
  - intros Hlen Hignore.
    rewrite (checkFunction_not_ignored _ _ _ Hignore), (Hcount Hlen).
    apply in_or_app. right. now left.
Qed.

End Handlers.

(** ** The statements at sample trees *)

Import Samples.

Abbreviation checkFunction' :=
  (checkFunction IgnoreOptions.shouldIgnorePattern Tree.isIIFE).
Abbreviation checkIdentifier' :=
  (checkIdentifier IgnoreOptions.shouldIgnorePattern
     Tree.isPropertyAccess Tree.isPropertyName).

(** [function f(a, ...rest) {}] and a reference to [arguments], both named
    by an ignore pattern; unignored, the first gets two descriptors and
    the second one. *)
Lemma ignore_short_circuit_witness :
  let f :=
    declaration_f [ param_a AST_NODE_TYPES.FunctionDeclaration;
                    param_rest AST_NODE_TYPES.FunctionDeclaration ] in
  let a :=
    {| id_parent :=
         Some (ChildOf (AST_NODE_TYPES.OtherType "ReturnStatement")
                       "argument");
       TSESTree.name := "arguments" |} in
  let ignoring :=
    [ IgnoreOptions.LiteralName "f"; IgnoreOptions.LiteralName "arguments" ]
  in
  (length (descriptors
             (checkFunction' f context
                (options false (EnforceString exactlyOne) []))) = 2
   /\ length (descriptors
                (checkIdentifier' a context
                   (options false (EnforceString exactlyOne) []))) = 1)
  /\ descriptors
       (checkFunction' f context
          (options false (EnforceString exactlyOne) ignoring)) = []
  /\ descriptors
       (checkIdentifier' a context
          (options false (EnforceString exactlyOne) ignoring)) = [].
Proof.
  intros f a ignoring.
  split; [split; reflexivity|].
  pose proof
    (ignore_short_circuit IgnoreOptions.shouldIgnorePattern Tree.isIIFE
       Tree.isPropertyAccess Tree.isPropertyName context
       {| ignorePatternOption := ignoring;
          allowRestParameter := false;
          allowArgumentsKeyword := false;
          enforceParameterCount := EnforceString exactlyOne |})
    as [Hfunction Hidentifier].
  split.
  - exact (f_equal descriptors (Hfunction f eq_refl)).
  - exact (f_equal descriptors (Hidentifier a eq_refl)).
Defined.

(** [function f() {}] under ["atLeastOne"]. *)
Lemma atLeastOne_reports_no_parameter_witness :
  messageIds
    (checkFunction' (declaration_f []) context
       (options false (EnforceString atLeastOne) []))
  = [ paramCountAtLeastOne ].
Proof.
  unfold messageIds, options.
  rewrite (atLeastOne_reports_no_parameter
             IgnoreOptions.shouldIgnorePattern Tree.isIIFE);
    reflexivity.
Defined.

(** [(function () {})()] under [{ count: "atLeastOne", ignoreIIFE: true }]. *)
Lemma ignoreIIFE_exempts_no_parameter_witness :
  Tree.isIIFE (ofFunction (invoked [])) = true
  /\ descriptors
       (checkFunction' (invoked []) context
          (options false (EnforceObject atLeastOne true) []))
     = [].
Proof.
  split; [reflexivity|].
  apply (ignoreIIFE_exempts_no_parameter
           IgnoreOptions.shouldIgnorePattern Tree.isIIFE);
    reflexivity.
Defined.

(** [function f(a, ...rest) {}] under ["exactlyOne"]: both detectors
    fire. *)
Lemma rest_parameter_reported_witness :
  messageIds
    (checkFunction'
       (declaration_f [ param_a AST_NODE_TYPES.FunctionDeclaration;
                        param_rest AST_NODE_TYPES.FunctionDeclaration ])
       context (options false (EnforceString exactlyOne) []))
  = [ restParam; paramCountExactlyOne ].
Proof.
  unfold messageIds, options.
  destruct (rest_parameter_reported
              IgnoreOptions.shouldIgnorePattern Tree.isIIFE
              (declaration_f [ param_a AST_NODE_TYPES.FunctionDeclaration;
                               param_rest AST_NODE_TYPES.FunctionDeclaration ])
              context
              {| ignorePatternOption := [];
                 allowRestParameter := false;
                 allowArgumentsKeyword := false;
                 enforceParameterCount := EnforceString exactlyOne |}
              [ param_a AST_NODE_TYPES.FunctionDeclaration ]
              (param_rest AST_NODE_TYPES.FunctionDeclaration)
              eq_refl eq_refl eq_refl eq_refl) as [-> _].
  reflexivity.
Defined.

(** [function f(a, ...rest) {}] under ["exactlyOne"]: [restParam] at index 0,
    [paramCountExactlyOne] at index 1. *)
Lemma detectors_in_declared_order_witness :
  let f :=
    declaration_f [ param_a AST_NODE_TYPES.FunctionDeclaration;
                    param_rest AST_NODE_TYPES.FunctionDeclaration ] in
  let reported :=
    descriptors
      (checkFunction' f context (options false (EnforceString exactlyOne) []))
  in
  option_map messageId (nth_error reported 0) = Some restParam
  /\ option_map messageId (nth_error reported 1) = Some paramCountExactlyOne
  /\ 0 < 1.
Proof.
  intros f reported.
  destruct (detectors_in_declared_order
              IgnoreOptions.shouldIgnorePattern Tree.isIIFE
              f context
              {| ignorePatternOption := [];
                 allowRestParameter := false;
                 allowArgumentsKeyword := false;
                 enforceParameterCount := EnforceString exactlyOne |}
              eq_refl) as [_ Horder].
  split; [reflexivity|]. split; [reflexivity|].
  apply (Horder 0 1
           {| node := param_rest AST_NODE_TYPES.FunctionDeclaration;
              messageId := restParam |}
           {| node := ofFunction f; messageId := paramCountExactlyOne |});
    try reflexivity.
  now right.
Defined.

(** [(function (a, b) {})()] under
    [{ count: "exactlyOne", ignoreIIFE: true }]. *)
Lemma ignoreIIFE_only_without_parameters_witness :
  let f :=
    invoked [ param_a AST_NODE_TYPES.FunctionExpression;
              ident (inParams AST_NODE_TYPES.FunctionExpression) "b" ] in
  Tree.isIIFE (ofFunction f) = true
  /\ In {| node := ofFunction f; messageId := paramCountExactlyOne |}
        (descriptors
           (checkFunction' f context
              (options false (EnforceObject exactlyOne true) []))).
Proof.
  intros f. split; [reflexivity|].
  destruct (ignoreIIFE_only_without_parameters
              IgnoreOptions.shouldIgnorePattern Tree.isIIFE
              f context [] false false exactlyOne true) as (_ & _ & Hin).
  apply Hin; [simpl; lia | reflexivity].
Defined.

End FunctionalParametersFacts.

(* ================================================================== *)
(** * Properties of [no-promise-reject]                                *)
(* ================================================================== *)

Module NoPromiseRejectFacts.
Import TSESTree Rule Typeguard NoPromiseReject.

Section Handlers.

Context {RuleContext : Type}.
Implicit Types (node : CallExpressionNode) (ctx : RuleContext).

#[local] Set Default Proof Using "Type".

(** The guards and the narrowing reads agree. *)
Lemma isMemberExpression_as (n : Node) :
  isMemberExpression n = true
  <-> exists object property, asMemberExpression n = Some (object, property).
Proof.
  unfold isMemberExpression, asMemberExpression, type.
  destruct (shape n); simpl; split;
    try discriminate; try (intros (? & ? & ?); discriminate);
    eauto.
Qed.

Lemma isIdentifier_as (n : Node) :
  isIdentifier n = true <-> exists text, asIdentifier n = Some text.
Proof.
  unfold isIdentifier, asIdentifier, type.
  destruct (shape n); simpl; split;
    try discriminate; try (intros (? & ?); discriminate);
    eauto.
Qed.

(** C5.  Scenario D: a call whose callee is a member access with the
    identifier [Promise] as object gets one descriptor, of key [generic]
    and for the call itself, when the property is the identifier
    [reject], and none when it is the identifier [resolve]. *)
Theorem promise_reject_reported node ctx object property computed :
  shape (callee node) = MemberExpression object property computed ->
  shape object = Identifier "Promise" ->
  (shape property = Identifier "reject" ->
   descriptors (checkCallExpression node ctx)
   = [ {| node := ofCallExpression node; messageId := generic |} ])
  /\ (shape property = Identifier "resolve" ->
      descriptors (checkCallExpression node ctx) = []).
Proof.
  intros Hcallee Hobject.
  unfold checkCallExpression, asMemberExpression, asIdentifier; simpl.
  rewrite Hcallee, Hobject.
  split; intros ->; reflexivity.
Qed.

(** C10.  A call whose callee is not a member expression with an
    identifier as object and an identifier as property gets no
    descriptor: so the bare call [reject(...)], the access
    [Promise["reject"](...)] whose property is a literal, and the nested
    access [a.Promise.reject(...)] whose object is a member expression.
    The arguments of the call do not bear on the report. *)
Theorem only_members_of_identifiers node ctx :
  ((forall object property computed object_name property_name,
       shape (callee node) = MemberExpression object property computed ->
       shape object = Identifier object_name ->
       shape property = Identifier property_name ->
       False) ->
   descriptors (checkCallExpression node ctx) = [])
  /\ (forall text,
         shape (callee node) = Identifier text ->
         descriptors (checkCallExpression node ctx) = [])
  /\ (forall object property computed raw,
         shape (callee node) = MemberExpression object property computed ->
         shape property = Literal raw ->
         descriptors (checkCallExpression node ctx) = [])
  /\ (forall object property computed inner_object inner_property
             inner_computed,
         shape (callee node) = MemberExpression object property computed ->
         shape object
         = MemberExpression inner_object inner_property inner_computed ->
         descriptors (checkCallExpression node ctx) = [])
  /\ (forall others,
         sameReport
           (checkCallExpression node ctx)
           (checkCallExpression
              {| call_parent := call_parent node;
                 callee := callee node;
                 arguments := others |} ctx)).
Proof.
  assert (Hgeneral :
    (forall object property computed object_name property_name,
        shape (callee node) = MemberExpression object property computed ->
        shape object = Identifier object_name ->
        shape property = Identifier property_name ->
        False) ->
    descriptors (checkCallExpression node ctx) = []).
  { intros Hnot.
    unfold checkCallExpression, asMemberExpression, asIdentifier; simpl.
    destruct (shape (callee node)) eqn:Hcallee; try reflexivity.
    destruct (shape object) eqn:Hobject; try reflexivity.
    destruct (shape property) eqn:Hproperty; try reflexivity.
    destruct (Hnot _ _ _ _ _ eq_refl Hobject Hproperty). }
  split; [exact Hgeneral|].
  split; [|split; [|split]].
  - intros text Hcallee. apply Hgeneral.
    intros; congruence.
  - intros object property computed raw Hcallee Hproperty.
    apply Hgeneral. intros; congruence.
  - intros object property computed io ip ic Hcallee Hobject.
    apply Hgeneral. intros; congruence.
  - intros others.
    unfold sameReport, messageIds, checkCallExpression; simpl.
    destruct (asMemberExpression (callee node)) as [[object property]|];
      [|now split].
    destruct (asIdentifier object), (asIdentifier property);
      try now split.
    destruct (_ && _); now split.
Qed.

End Handlers.

(** ** The statements at sample trees *)

Import Samples.

(** [Promise.reject(e)] and [Promise.resolve(e)]. *)
Lemma promise_reject_reported_witness :
  messageIds
    (checkCallExpression
       (call (member "Promise" "reject" false)
             [ ident (Some (ChildOf AST_NODE_TYPES.CallExpression
                                    "arguments")) "e" ])
       context)
  = [ generic ].
Proof.
  unfold messageIds.
  destruct (promise_reject_reported
              (call (member "Promise" "reject" false)
                    [ ident (Some (ChildOf AST_NODE_TYPES.CallExpression
                                           "arguments")) "e" ])
              context _ _ false eq_refl eq_refl) as [-> _];
    reflexivity.
Defined.

(** [reject(e)]. *)
Lemma only_members_of_identifiers_witness :
  descriptors
    (checkCallExpression
       (call (ident (Some (ChildOf AST_NODE_TYPES.CallExpression "callee"))
                    "reject")
             [])
       context)
  = [].
Proof.
  destruct (only_members_of_identifiers
              (call (ident (Some (ChildOf AST_NODE_TYPES.CallExpression
                                          "callee")) "reject") [])
              context) as [Hgeneral _].
  apply Hgeneral. intros * H. discriminate H.
Defined.

End NoPromiseRejectFacts.

(* ================================================================== *)
(** * Properties of the option schema                                  *)
(* ================================================================== *)

Module FunctionalParametersSchemaFacts.
Import JSON JSONSchema4 FunctionalParametersSchema.

Lemma eqb_String (x : value) (s : string) :
  eqb x (String s) = true <-> x = String s.
Proof.
  destruct x; simpl; split; try discriminate.
  - intros H. apply String.eqb_eq in H. now subst.
  - intros H. injection H as ->. apply String.eqb_refl.
Qed.

Lemma eqb_Bool (x : value) (b : bool) :
  eqb x (Bool b) = true <-> x = Bool b.
Proof.
  destruct x; simpl; split; try discriminate.
  - intros H. apply Bool.eqb_prop in H. now subst.
  - intros H. injection H as ->. apply Bool.eqb_reflx.
Qed.

Lemma validate_parameterCount (x : value) :
  validate parameterCount x = true
  <-> x = String "atLeastOne" \/ x = String "exactlyOne".
Proof.
  unfold parameterCount.
  destruct x; cbn;
    try (split; [discriminate | intros [H | H]; discriminate H]).
  rewrite !andb_true_r, orb_false_r, orb_true_iff, !String.eqb_eq.
  split; (intros [H | H]; [left | right]); congruence.
Qed.

Lemma validate_boolean (x : value) :
  validate boolean x = true <-> exists b, x = Bool b.
Proof.
  unfold boolean. cbn.
  destruct x; simpl; split; try discriminate;
    try (intros [b H]; discriminate); eauto.
Qed.

Lemma declared_key (key : string) :
  hasKey key [ ("count", parameterCount); ("ignoreIIFE", boolean) ] = true
  <-> key = "count" \/ key = "ignoreIIFE".
Proof.
  unfold hasKey. cbn -[String.eqb].
  destruct ("count" =? key)%string eqn:Ec.
  - apply String.eqb_eq in Ec. subst key. split; auto.
  - destruct ("ignoreIIFE" =? key)%string eqn:Ei.
    + apply String.eqb_eq in Ei. subst key. split; auto.
    + apply String.eqb_neq in Ec, Ei. split; [intros H; discriminate H|].
      intros [H | H]; congruence.
Qed.

Lemma validate_object (members : list (string * value)) :
  validate enforceParameterCount (Object members) = true
  <-> partialObject members.
Proof.
  change (validate enforceParameterCount (Object members))
    with (((if match lookup "count" members with
               | Some x => validate parameterCount x
               | None => true
               end
               && (match lookup "ignoreIIFE" members with
                   | Some x => validate boolean x
                   | None => true
                   end && true)
               && forallb
                    (fun member =>
                       hasKey (fst member)
                         [ ("count", parameterCount);
                           ("ignoreIIFE", boolean) ])
                    members
            then 1 else 0) + 0 =? 1) && true).
  unfold partialObject.
  rewrite !andb_true_r, Nat.add_0_r.
  split.
  - intros H.
    destruct (_ && _) eqn:E in H; [|discriminate H]. clear H.
    rewrite !andb_true_iff, forallb_forall in E.
    destruct E as [[Hcount Hignore] Hkeys].
    repeat split.
    + intros member Hin. apply declared_key, Hkeys, Hin.
    + intros x Hx. rewrite Hx in Hcount.
      now apply validate_parameterCount.
    + intros x Hx. rewrite Hx in Hignore. now apply validate_boolean.
  - intros (Hkeys & Hcount & Hignore).
    assert (E : match lookup "count" members with
                | Some x => validate parameterCount x
                | None => true
                end
                && match lookup "ignoreIIFE" members with
                   | Some x => validate boolean x
                   | None => true
                   end
                && forallb
                     (fun member =>
                        hasKey (fst member)
                          [ ("count", parameterCount);
                            ("ignoreIIFE", boolean) ])
                     members = true).
    { rewrite !andb_true_iff, forallb_forall.
      repeat split.
      - destruct (lookup "count" members) as [x|]; [|reflexivity].
        now apply validate_parameterCount, Hcount.
      - destruct (lookup "ignoreIIFE" members) as [x|]; [|reflexivity].
        now apply validate_boolean, Hignore.
      - intros member Hin. apply declared_key, Hkeys, Hin. }
    now rewrite E.
Qed.

(** What the declaration of [enforceParameterCount] lets through. *)
Lemma validate_admitted (v : value) :
  validate enforceParameterCount v = true <-> admitted v.
Proof.
  unfold admitted. destruct v as [|b|n|s|items|members].
  - cbn. split; [discriminate|].
    intros [H | [H | [H | (m & H & _)]]]; discriminate H.
  - destruct b; cbn; split; auto; try discriminate.
    intros [H | [H | [H | (m & H & _)]]]; discriminate H.
  - cbn. split; [discriminate|].
    intros [H | [H | [H | (m & H & _)]]]; discriminate H.
  - cbn. rewrite !andb_true_r, orb_false_r, Nat.add_0_r.
    destruct (_ || _) eqn:E.
    + apply orb_true_iff in E. rewrite !String.eqb_eq in E.
      split; [|reflexivity]. intros _.
      destruct E as [-> | ->]; auto.
    + apply orb_false_iff in E. rewrite !String.eqb_neq in E.
      split; [discriminate|].
      intros [H | [H | [H | (m & H & _)]]];
        try discriminate H; injection H as ->; now destruct E.
  - cbn. split; [discriminate|].
    intros [H | [H | [H | (m & H & _)]]]; discriminate H.
  - rewrite validate_object. split.
    + intros H. right. right. right. now exists members.
    + intros [H | [H | [H | (m & H & Hm)]]]; try discriminate H.
      now injection H as ->.
Qed.

Lemma checkEnforceParameterCount_None (v : value) :
  checkEnforceParameterCount v = None <-> admitted v.
Proof.
  rewrite <- validate_admitted.
  unfold checkEnforceParameterCount, checkOption.
  destruct (validate enforceParameterCount v); split;
    auto; discriminate.
Qed.

(** The error a rejected value is answered with. *)
Lemma checkEnforceParameterCount_Some (v : value) :
  ~ admitted v ->
  checkEnforceParameterCount v
  = Some {| ruleName := "functional-parameters";
            optionPath := "enforceParameterCount" |}.
Proof.
  rewrite <- validate_admitted.
  unfold checkEnforceParameterCount, checkOption.
  destruct (validate enforceParameterCount v); [|reflexivity].
  intros H. now destruct H.
Qed.

Lemma rawParameterCount_cases (c : FunctionalParameters.ParameterCountOptions) :
  rawParameterCount c = String "atLeastOne"
  \/ rawParameterCount c = String "exactlyOne".
Proof. destruct c; auto. Qed.

(** Each of the four declared shapes is let through. *)
Lemma declaredShape_admitted (v : value) : declaredShape v -> admitted v.
Proof.
  unfold declaredShape, admitted.
  intros [H | [H | [H | (members & c & b & -> & Hcount & Hignore & Hkeys)]]];
    auto.
  right. right. right. exists members. split; [reflexivity|].
  repeat split.
  - exact Hkeys.
  - intros x Hx. rewrite Hcount in Hx. injection Hx as <-.
    apply rawParameterCount_cases.
  - intros x Hx. rewrite Hignore in Hx. injection Hx as <-. now exists b.
Qed.

(** Beyond them, only objects with [count] or [ignoreIIFE] left out. *)
Lemma admitted_cases (v : value) :
  admitted v ->
  declaredShape v
  \/ exists members,
       v = Object members
       /\ partialObject members
       /\ (lookup "count" members = None
           \/ lookup "ignoreIIFE" members = None).
Proof.
  unfold declaredShape.
  intros [H | [H | [H | (members & -> & Hm)]]]; auto.
  destruct (lookup "count" members) as [x|] eqn:Hcount;
    [|right; exists members; auto].
  destruct (lookup "ignoreIIFE" members) as [y|] eqn:Hignore;
    [|right; exists members; auto].
  left. right. right. right.
  destruct Hm as (Hkeys & Hc & Hi).
  destruct (Hi y Hignore) as [b ->].
  destruct (Hc x Hcount) as [-> | ->].
  - exists members, FunctionalParameters.atLeastOne, b. auto.
  - exists members, FunctionalParameters.exactlyOne, b. auto.
Qed.

Lemma raw_declared (e : FunctionalParameters.EnforceParameterCount) :
  declaredShape (raw e).
Proof.
  unfold declaredShape.
  destruct e as [|[|]|c b]; simpl; auto.
  right. right. right.
  exists [ ("count", rawParameterCount c); ("ignoreIIFE", Bool b) ], c, b.
  repeat split.
  intros member [<- | [<- | []]]; simpl; auto.
Qed.

(** The empty object is none of the four declared shapes. *)
Lemma empty_object_undeclared : ~ declaredShape (Object []).
Proof.
  intros [H | [H | [H | (members & c & b & H & Hcount & _)]]];
    try discriminate H.
  injection H as <-. discriminate Hcount.
Qed.

(** C7, as stated, fails: the object [{}] has neither field [count] nor
    field [ignoreIIFE], so it is none of the four declared shapes, and the
    schema lets it through; the values let through are not the four
    shapes only. *)
Lemma empty_object_not_rejected :
  ~ declaredShape (Object [])
  /\ checkEnforceParameterCount (Object []) = None
  /\ ~ (forall v, checkEnforceParameterCount v = None -> declaredShape v).
Proof.
  split; [exact empty_object_undeclared|].
  split; [reflexivity|].
  intros H. exact (empty_object_undeclared (H (Object []) eq_refl)).
Qed.

(** The check of a raw [enforceParameterCount] value, value by value: it
    lets through each of the four declared shapes -- ["atLeastOne"],
    ["exactlyOne"], [false], [{ count, ignoreIIFE }] --, and beyond them
    only the objects of the fourth shape with [count] or [ignoreIIFE] left
    out, all of which it lets through; every other value -- a number,
    [true], [null], an array, another string, an object with another key or
    with a field of the wrong type -- is answered with a
    [ConfigurationError] that names the rule and the option. *)
Lemma enforceParameterCount_admits :
  let rejected v :=
    checkEnforceParameterCount v
    = Some {| ruleName := "functional-parameters";
              optionPath := "enforceParameterCount" |} in
  (forall v, declaredShape v -> checkEnforceParameterCount v = None)
  /\ (forall v,
         checkEnforceParameterCount v = None ->
         declaredShape v
         \/ exists members,
              v = Object members
              /\ partialObject members
              /\ (lookup "count" members = None
                  \/ lookup "ignoreIIFE" members = None))
  /\ (forall members,
         partialObject members ->
         checkEnforceParameterCount (Object members) = None)
  /\ (forall v, checkEnforceParameterCount v <> None -> rejected v)
  /\ (forall n, rejected (Number n))
  /\ rejected (Bool true)
  /\ rejected Null
  /\ (forall items, rejected (Array items))
  /\ (forall s, s <> "atLeastOne" -> s <> "exactlyOne" -> rejected (String s))
  /\ (forall members key x,
         In (key, x) members -> key <> "count" -> key <> "ignoreIIFE" ->
         rejected (Object members))
  /\ (forall members x,
         lookup "count" members = Some x ->
         x <> String "atLeastOne" -> x <> String "exactlyOne" ->
         rejected (Object members))
  /\ (forall members x,
         lookup "ignoreIIFE" members = Some x ->
         (forall b, x <> Bool b) ->
         rejected (Object members)).
Proof.
  intros rejected. subst rejected. cbv beta.
  split.
  { intros v Hv.
    now apply checkEnforceParameterCount_None, declaredShape_admitted. }
  split.
  { intros v Hv.
    now apply admitted_cases, checkEnforceParameterCount_None. }
  split.
  { intros members Hm. apply checkEnforceParameterCount_None.
    right. right. right. now exists members. }
  split.
  { intros v Hv. apply checkEnforceParameterCount_Some.
    intros Ha. now apply Hv, checkEnforceParameterCount_None. }
  repeat split; intros; apply checkEnforceParameterCount_Some;
    intros [Hv | [Hv | [Hv | (m & Hv & Hkeys & Hc & Hi)]]];
    try discriminate Hv.
  - injection Hv as ->. congruence.
  - injection Hv as ->. congruence.
  - injection Hv as <-.
    match goal with
    | Hin : In _ _ |- _ => destruct (Hkeys _ Hin) as [E | E]; simpl in E
    end; congruence.
  - injection Hv as <-.
    match goal with
    | Hx : lookup _ _ = Some _ |- _ => destruct (Hc _ Hx)
    end; congruence.
  - injection Hv as <-.
    match goal with
    | Hx : lookup _ _ = Some ?x, Hb : forall b, ?x <> Bool b |- _ =>
        destruct (Hi _ Hx) as [b Eb]; exact (Hb b Eb)
    end.
Qed.

End FunctionalParametersSchemaFacts.

(* ================================================================== *)
(** * More on the detectors of [functional-parameters]                 *)
(* ================================================================== *)

Module FunctionalParametersDetectors.
Import TSESTree Rule Typeguard FunctionalParameters Reports.

Section Handlers.

Context {IgnorePatternOption RuleContext : Type}.
Variable shouldIgnorePattern :
  Node -> RuleContext -> OptionsObject IgnorePatternOption -> bool.
Variable isIIFE : Node -> bool.
Variable isPropertyAccess : Node -> bool.
Variable isPropertyName : Node -> bool.

Local Abbreviation checkFunction :=
  (FunctionalParameters.checkFunction shouldIgnorePattern isIIFE).
Local Abbreviation checkIdentifier :=
  (FunctionalParameters.checkIdentifier
     shouldIgnorePattern isPropertyAccess isPropertyName).
Local Abbreviation getParamCountViolations :=
  (FunctionalParameters.getParamCountViolations
     (IgnorePatternOption := IgnorePatternOption) isIIFE).
Local Abbreviation getRestParamViolations :=
  (FunctionalParameters.getRestParamViolations
     (IgnorePatternOption := IgnorePatternOption)).

#[local] Set Default Proof Using "Type".

Implicit Types (fn : FunctionNode) (id : IdentifierNode)
         (o : OptionsObject IgnorePatternOption) (ctx : RuleContext).

(** The last parameter is the last element of [params]. *)
Lemma lastParam_Some_iff fn last :
  lastParam fn = Some last <-> exists front, params fn = front ++ [last].
Proof.
  split.
  - intros H. unfold lastParam in H.
    destruct (params fn) as [|p ps] eqn:E; [discriminate H|].
    destruct (exists_last (l := p :: ps)) as (front & x & Hx);
      [discriminate|].
    exists front. rewrite Hx in H |- *.
    rewrite length_app, Nat.add_sub in H. simpl in H.
    rewrite nth_error_app2, Nat.sub_diag in H by lia.
    now injection H as ->.
  - intros [front H]. exact (FunctionalParametersFacts.lastParam_snoc _ _ _ H).
Qed.

Lemma lastParam_None_iff fn : lastParam fn = None <-> params fn = [].
Proof.
  split; [|apply FunctionalParametersFacts.lastParam_nil].
  unfold lastParam. destruct (params fn) as [|p ps] eqn:E; [reflexivity|].
  intros H. apply nth_error_None in H. simpl in H. lia.
Qed.

(** X1.  [getRestParamViolations] reports the last parameter, under
    [restParam], exactly when rest parameters are not allowed and the last
    parameter is a rest element; it reports nothing when they are allowed,
    when there is no parameter, and when the last parameter is not a rest
    element, whatever the parameters before it are. *)
Theorem rest_parameter_violation_iff o fn :
  (forall last,
      getRestParamViolations (Tuple o) fn
      = [ {| node := last; messageId := restParam |} ]
      <-> allowRestParameter o = false
          /\ (exists front, params fn = front ++ [last])
          /\ isRestElement last = true)
  /\ (getRestParamViolations (Tuple o) fn = []
      <-> allowRestParameter o = true
          \/ params fn = []
          \/ exists front last,
               params fn = front ++ [last] /\ isRestElement last = false).
Proof.
  unfold FunctionalParameters.getRestParamViolations.
  destruct (lastParam fn) as [l|] eqn:Hlast.
  - pose proof (FunctionalParametersFacts.lastParam_Some _ _ Hlast) as Hlen.
    apply Nat.ltb_lt in Hlen. rewrite Hlen, andb_true_r.
    apply lastParam_Some_iff in Hlast. destruct Hlast as [front Hfront].
    split.
    + intros last. split.
      * destruct (allowRestParameter o), (isRestElement l) eqn:Hl;
          simpl; intros H; try discriminate H.
        injection H as ->. repeat split; eauto.
      * intros (-> & (front' & Hfront') & Hrest).
        rewrite Hfront in Hfront'. apply app_inj_tail in Hfront'.
        destruct Hfront' as [_ ->]. now rewrite Hrest.
    + split.
      * destruct (allowRestParameter o), (isRestElement l) eqn:Hl;
          simpl; intros H; try discriminate H; auto.
        right. right. now exists front, l.
      * intros [-> | [H | (front' & last & Hfront' & Hrest)]];
          [reflexivity | |].
        -- rewrite Hfront in H. now destruct front.
        -- rewrite Hfront in Hfront'. apply app_inj_tail in Hfront'.
           destruct Hfront' as [_ ->]. rewrite Hrest.
           now rewrite andb_false_r.
  - apply lastParam_None_iff in Hlast. split.
    + intros last. split; [discriminate|].
      intros (_ & (front & Hfront) & _). rewrite Hlast in Hfront.
      now destruct front.
    + split; auto.
Qed.

(** X2.  [getParamCountViolations], spelled out.  Call the option counted
    as [c] when it is the string [c] or an object whose [count] is [c], and
    the function exempt when the option is an object with
    [ignoreIIFE = true] and the function is an immediately-invoked one.  The
    function itself is reported under [paramCountAtLeastOne] exactly when
    it has no parameter, the option is counted as [atLeastOne] and the
    function is not exempt; under [paramCountExactlyOne] exactly when the
    number of its parameters is not one, the option is counted as
    [exactlyOne] and the function has a parameter or is not exempt. *)
Theorem parameter_count_violation_iff o fn :
  let counted c :=
    enforceParameterCount o = EnforceString c
    \/ exists b, enforceParameterCount o = EnforceObject c b in
  let exempt :=
    (exists c, enforceParameterCount o = EnforceObject c true)
    /\ isIIFE (ofFunction fn) = true in
  (getParamCountViolations (Tuple o) fn
   = [ {| node := ofFunction fn; messageId := paramCountAtLeastOne |} ]
   <-> params fn = [] /\ counted atLeastOne /\ ~ exempt)
  /\ (getParamCountViolations (Tuple o) fn
      = [ {| node := ofFunction fn; messageId := paramCountExactlyOne |} ]
      <-> length (params fn) <> 1
          /\ counted exactlyOne
          /\ (params fn = [] -> ~ exempt)).
Proof.
  intros counted exempt. subst counted exempt.
  unfold FunctionalParameters.getParamCountViolations.
  destruct (enforceParameterCount o) as [|[|]|[|] [|]] eqn:He;
    destruct (params fn) as [|p [|q ps]] eqn:Hp;
    destruct (isIIFE (ofFunction fn)) eqn:Hi;
    simpl; split; split;
    try discriminate;
    try (intros _; repeat split; eauto; try discriminate; try lia;
         try (intros [[c Hc] Hd]; discriminate);
         try (intros _ [[c Hc] Hd]; discriminate);
         fail);
    try (intros (H1 & H2 & H3); exfalso;
         first [ discriminate H1
               | simpl in H1; lia
               | destruct H2 as [H2 | [b H2]]; discriminate H2
               | apply H3; split; eauto
               | apply H3; [reflexivity | split; eauto] ]).
Qed.

(** What a report of each detector tells about the function. *)
Lemma getRestParamViolations_inv o fn d :
  In d (getRestParamViolations (Tuple o) fn) ->
  messageId d = restParam
  /\ lastParam fn = Some (node d)
  /\ isRestElement (node d) = true
  /\ allowRestParameter o = false.
Proof.
  unfold FunctionalParameters.getRestParamViolations.
  destruct (lastParam fn) as [last|]; [|contradiction].
  destruct (allowRestParameter o), (0 <? length (params fn)),
    (isRestElement last) eqn:Hrest; simpl; try contradiction.
  intros [<- | H]; [|contradiction]. simpl. auto.
Qed.

Lemma getParamCountViolations_inv o fn d :
  In d (getParamCountViolations (Tuple o) fn) ->
  node d = ofFunction fn
  /\ ((messageId d = paramCountAtLeastOne /\ params fn = [])
      \/ (messageId d = paramCountExactlyOne /\ length (params fn) <> 1)).
Proof.
  unfold FunctionalParameters.getParamCountViolations.
  destruct (_ || _); [contradiction|].
  destruct (length (params fn) =? 0) eqn:Hzero.
  - apply Nat.eqb_eq in Hzero.
    destruct (countIs _ atLeastOne); simpl.
    + intros [<- | H]; [|contradiction]. simpl.
      apply length_zero_iff_nil in Hzero. auto.
    + rewrite Hzero. simpl.
      destruct (countIs _ exactlyOne); simpl; [|contradiction].
      intros [<- | H]; [|contradiction]. simpl.
      split; [reflexivity|]. right. split; [reflexivity|lia].
  - simpl. destruct (length (params fn) =? 1) eqn:Hone; simpl;
      [contradiction|].
    apply Nat.eqb_neq in Hone.
    destruct (countIs _ exactlyOne); simpl; [|contradiction].
    intros [<- | H]; [|contradiction]. simpl. auto.
Qed.

(** X3.  What the count detector never reports: a function with exactly
    one parameter, whatever the options; any function when
    [enforceParameterCount] is [false]; and, when the option is counted as
    [atLeastOne], a function with a parameter. *)
Theorem parameter_count_never_reported o fn :
  (length (params fn) = 1 -> getParamCountViolations (Tuple o) fn = [])
  /\ (enforceParameterCount o = EnforceFalse ->
      getParamCountViolations (Tuple o) fn = [])
  /\ (countIs (enforceParameterCount o) atLeastOne = true ->
      params fn <> [] ->
      getParamCountViolations (Tuple o) fn = []).
Proof.
  repeat split.
  - intros Hlen.
    destruct (getParamCountViolations (Tuple o) fn) as [|d ds] eqn:E;
      [reflexivity|].
    destruct (getParamCountViolations_inv o fn d) as (_ & [[_ H] | [_ H]]).
    + rewrite E. now left.
    + rewrite H in Hlen. discriminate Hlen.
    + contradiction.
  - intros He. unfold FunctionalParameters.getParamCountViolations.
    now rewrite He.
  - intros Hc Hp. unfold FunctionalParameters.getParamCountViolations.
    destruct (params fn) as [|p ps]; [now destruct Hp|].
    destruct (enforceParameterCount o) as [|[|]|[|] b];
      try discriminate Hc; simpl; now rewrite andb_false_r.
Qed.

(** X4.  The exemption of immediately-invoked functions needs the object
    form of the option with [ignoreIIFE = true], and holds under either
    count.  An immediately-invoked function without parameters is reported
    under the key of the count when the option is the plain string or an
    object with [ignoreIIFE = false], and is not reported when
    [ignoreIIFE = true]; a function that is not immediately invoked is
    reported whatever [ignoreIIFE] is. *)
Theorem ignoreIIFE_needs_object_form fn ignore allowRest allowArgs c :
  let options e :=
    Tuple {| ignorePatternOption := ignore;
             allowRestParameter := allowRest;
             allowArgumentsKeyword := allowArgs;
             enforceParameterCount := e |} in
  let key :=
    match c with
    | atLeastOne => paramCountAtLeastOne
    | exactlyOne => paramCountExactlyOne
    end in
  let reported := [ {| node := ofFunction fn; messageId := key |} ] in
  params fn = [] ->
  getParamCountViolations (options (EnforceString c)) fn = reported
  /\ getParamCountViolations (options (EnforceObject c false)) fn = reported
  /\ (isIIFE (ofFunction fn) = true ->
      getParamCountViolations (options (EnforceObject c true)) fn = [])
  /\ (isIIFE (ofFunction fn) = false ->
      getParamCountViolations (options (EnforceObject c true)) fn = reported).
Proof.
  intros options key reported Hp. subst options key reported.
  unfold FunctionalParameters.getParamCountViolations. simpl.
  rewrite Hp. simpl.
  destruct c; simpl; repeat split; intros ->; reflexivity.
Qed.

(** X5.  [checkIdentifier] returns nothing or the one descriptor
    [arguments] for the identifier, and it returns the descriptor exactly
    when the identifier is not ignored, [allowArgumentsKeyword] is [false],
    the name is [arguments], and the identifier is neither a property name
    nor the property of a member access. *)
Theorem arguments_keyword_reported_iff id ctx o :
  let reported := descriptors (checkIdentifier id ctx (Tuple o)) in
  (reported = []
   \/ reported = [ {| node := ofIdentifier id; messageId := arguments |} ])
  /\ (reported <> []
      <-> shouldIgnorePattern (ofIdentifier id) ctx o = false
          /\ allowArgumentsKeyword o = false
          /\ TSESTree.name id = "arguments"
          /\ isPropertyName (ofIdentifier id) = false
          /\ isPropertyAccess (ofIdentifier id) = false).
Proof.
  intros reported. subst reported.
  unfold FunctionalParameters.checkIdentifier.
  destruct (shouldIgnorePattern _ _ _); simpl.
  { split; [now left|]. split; [congruence|]. intros [H _]. discriminate H. }
  destruct (allowArgumentsKeyword o); simpl.
  { split; [now left|]. split; [congruence|].
    intros (_ & H & _). discriminate H. }
  destruct (String.eqb_spec (TSESTree.name id) "arguments")
    as [Hname | Hname]; simpl.
  2:{ split; [now left|]. split; [congruence|].
      intros (_ & _ & H & _). contradiction. }
  destruct (isPropertyName _); simpl.
  { split; [now left|]. split; [congruence|].
    intros (_ & _ & _ & H & _). discriminate H. }
  destruct (isPropertyAccess _); simpl.
  { split; [now left|]. split; [congruence|].
    intros (_ & _ & _ & _ & H). discriminate H. }
  split; [now right|]. split; [auto | discriminate].
Qed.

(** X6.  The message keys of a result.  [checkFunction] returns one of
    five key lists: none, [restParam], [paramCountAtLeastOne],
    [paramCountExactlyOne], or [restParam] followed by
    [paramCountExactlyOne], the last only for a function with two
    parameters or more; so [restParam] never comes with
    [paramCountAtLeastOne], and [arguments] never from a function.
    [checkIdentifier] returns no key or [arguments] alone. *)
Theorem handler_message_keys fn id ctx o :
  let keys := messageIds (checkFunction fn ctx (Tuple o)) in
  (keys = []
   \/ keys = [restParam]
   \/ keys = [paramCountAtLeastOne]
   \/ keys = [paramCountExactlyOne]
   \/ keys = [restParam; paramCountExactlyOne])
  /\ (keys = [restParam; paramCountExactlyOne] -> 2 <= length (params fn))
  /\ (messageIds (checkIdentifier id ctx (Tuple o)) = []
      \/ messageIds (checkIdentifier id ctx (Tuple o)) = [arguments]).
Proof.
  intros keys. subst keys. unfold messageIds.
  split; [|split].
  - destruct (shouldIgnorePattern (ofFunction fn) ctx o) eqn:Hignore.
    { unfold FunctionalParameters.checkFunction. rewrite Hignore. now left. }
    rewrite (FunctionalParametersFacts.checkFunction_not_ignored
               _ _ _ _ _ Hignore), map_app.
    destruct (FunctionalParametersFacts.getRestParamViolations_cases o fn)
      as [-> | (last & Hlast & ->)];
      destruct (FunctionalParametersFacts.getParamCountViolations_cases
                  isIIFE o fn) as [E | [E | E]];
      rewrite E; simpl; auto 6.
    exfalso.
    destruct (getParamCountViolations_inv o fn
                {| node := ofFunction fn;
                   messageId := paramCountAtLeastOne |})
      as (_ & [[_ H] | [H _]]); [rewrite E; now left | | discriminate H].
    apply lastParam_None_iff in H. congruence.
  - destruct (shouldIgnorePattern (ofFunction fn) ctx o) eqn:Hignore.
    { unfold FunctionalParameters.checkFunction. rewrite Hignore.
      discriminate. }
    rewrite (FunctionalParametersFacts.checkFunction_not_ignored
               _ _ _ _ _ Hignore), map_app.
    destruct (FunctionalParametersFacts.getRestParamViolations_cases o fn)
      as [-> | (last & Hlast & ->)];
      destruct (FunctionalParametersFacts.getParamCountViolations_cases
                  isIIFE o fn) as [E | [E | E]];
      rewrite E; simpl; try discriminate.
    intros _.
    destruct (getParamCountViolations_inv o fn
                {| node := ofFunction fn;
                   messageId := paramCountExactlyOne |})
      as (_ & [[H _] | [_ H]]); [rewrite E; now left | discriminate H |].
    apply FunctionalParametersFacts.lastParam_Some in Hlast. lia.
  - unfold FunctionalParameters.checkIdentifier.
    destruct (shouldIgnorePattern _ _ _); simpl; [now left|].
    destruct (_ && _); simpl; auto.
Qed.

(** X7.  What a descriptor of [checkFunction] points at: under [restParam]
    the last parameter of the function, which is a rest element; under a
    parameter-count key the function itself. *)
Theorem checkFunction_targets fn ctx o d :
  In d (descriptors (checkFunction fn ctx (Tuple o))) ->
  (messageId d = restParam
   /\ isRestElement (node d) = true
   /\ exists front, params fn = front ++ [node d])
  \/ ((messageId d = paramCountAtLeastOne
       \/ messageId d = paramCountExactlyOne)
      /\ node d = ofFunction fn).
Proof.
  destruct (shouldIgnorePattern (ofFunction fn) ctx o) eqn:Hignore.
  { unfold FunctionalParameters.checkFunction. rewrite Hignore.
    contradiction. }
  rewrite (FunctionalParametersFacts.checkFunction_not_ignored
             _ _ _ _ _ Hignore).
  intros H. apply in_app_or in H. destruct H as [H | H].
  - apply getRestParamViolations_inv in H.
    destruct H as (Hkey & Hlast & Hrest & _).
    left. repeat split; auto. now apply lastParam_Some_iff.
  - apply getParamCountViolations_inv in H.
    destruct H as (Hnode & [[Hkey _] | [Hkey _]]); right; auto.
Qed.

Lemma filter_rest_violations o fn :
  filter isRestParam (getRestParamViolations (Tuple o) fn)
  = getRestParamViolations (Tuple o) fn
  /\ filter (fun d => negb (isRestParam d))
       (getRestParamViolations (Tuple o) fn) = [].
Proof.
  destruct (FunctionalParametersFacts.getRestParamViolations_cases o fn)
    as [-> | (last & _ & ->)]; split; reflexivity.
Qed.

Lemma filter_count_violations o fn :
  filter isRestParam (getParamCountViolations (Tuple o) fn) = []
  /\ filter (fun d => negb (isRestParam d))
       (getParamCountViolations (Tuple o) fn)
     = getParamCountViolations (Tuple o) fn.
Proof.
  destruct (FunctionalParametersFacts.getParamCountViolations_cases
              isIIFE o fn) as [-> | [-> | ->]]; split; reflexivity.
Qed.

(** X8.  Relaxing an option only takes descriptors away.  Where the ignore
    test answers the same for both options records, the result with
    [allowRestParameter = true] is the result with
    [allowRestParameter = false] without its [restParam] descriptors, and
    the result with [enforceParameterCount = false] is the result with any
    other setting reduced to its [restParam] descriptors. *)
Theorem relaxing_options_only_suppresses fn ctx ignore allowArgs allowRest e :
  let options r c :=
    {| ignorePatternOption := ignore;
       allowRestParameter := r;
       allowArgumentsKeyword := allowArgs;
       enforceParameterCount := c |} in
  (shouldIgnorePattern (ofFunction fn) ctx (options true e)
   = shouldIgnorePattern (ofFunction fn) ctx (options false e) ->
   descriptors (checkFunction fn ctx (Tuple (options true e)))
   = filter (fun d => negb (isRestParam d))
       (descriptors (checkFunction fn ctx (Tuple (options false e)))))
  /\ (shouldIgnorePattern (ofFunction fn) ctx (options allowRest EnforceFalse)
      = shouldIgnorePattern (ofFunction fn) ctx (options allowRest e) ->
      descriptors (checkFunction fn ctx (Tuple (options allowRest EnforceFalse)))
      = filter isRestParam
          (descriptors (checkFunction fn ctx (Tuple (options allowRest e))))).
Proof.
  intros options. split; intros Hsame.
  - unfold FunctionalParameters.checkFunction. rewrite Hsame.
    destruct (shouldIgnorePattern _ _ (options false e)); [reflexivity|].
    cbn [descriptors]. rewrite filter_app.
    destruct (filter_rest_violations (options false e) fn) as [_ ->].
    destruct (filter_count_violations (options false e) fn) as [_ ->].
    assert (Hnone : getRestParamViolations (Tuple (options true e)) fn = []).
    { unfold FunctionalParameters.getRestParamViolations.
      now destruct (lastParam fn). }
    rewrite Hnone. reflexivity.
  - unfold FunctionalParameters.checkFunction. rewrite Hsame.
    destruct (shouldIgnorePattern _ _ (options allowRest e)); [reflexivity|].
    cbn [descriptors]. rewrite filter_app.
    destruct (filter_rest_violations (options allowRest e) fn) as [-> _].
    destruct (filter_count_violations (options allowRest e) fn) as [-> _].
    reflexivity.
Qed.

(** X9.  The rule as shipped.  Under [defaultOptions], for a function that
    is not ignored: without parameters it is reported under
    [paramCountAtLeastOne] unless it is immediately invoked; with
    parameters it is reported only for a last parameter that is a rest
    element, under [restParam], however many parameters it has.  An
    identifier [arguments] that is not ignored and is neither a property
    name nor the property of a member access is reported. *)
Theorem default_options_behaviour (noIgnore : IgnorePatternOption) fn id ctx :
  let o :=
    {| ignorePatternOption := noIgnore;
       allowRestParameter := false;
       allowArgumentsKeyword := false;
       enforceParameterCount := EnforceObject atLeastOne true |} in
  defaultOptions noIgnore = Tuple o
  /\ (shouldIgnorePattern (ofFunction fn) ctx o = false ->
      (params fn = [] ->
       descriptors (checkFunction fn ctx (defaultOptions noIgnore))
       = if isIIFE (ofFunction fn) then []
         else [ {| node := ofFunction fn;
                   messageId := paramCountAtLeastOne |} ])
      /\ (forall front last,
             params fn = front ++ [last] ->
             descriptors (checkFunction fn ctx (defaultOptions noIgnore))
             = if isRestElement last
               then [ {| node := last; messageId := restParam |} ]
               else []))
  /\ (shouldIgnorePattern (ofIdentifier id) ctx o = false ->
      TSESTree.name id = "arguments" ->
      isPropertyName (ofIdentifier id) = false ->
      isPropertyAccess (ofIdentifier id) = false ->
      descriptors (checkIdentifier id ctx (defaultOptions noIgnore))
      = [ {| node := ofIdentifier id; messageId := arguments |} ]).
Proof.
  intros o. split; [reflexivity|]. split.
  - intros Hignore.
    change (defaultOptions noIgnore) with (Tuple o).
    rewrite (FunctionalParametersFacts.checkFunction_not_ignored
               _ _ _ _ _ Hignore).
    split.
    + intros Hp.
      unfold FunctionalParameters.getRestParamViolations,
        FunctionalParameters.getParamCountViolations.
      rewrite (FunctionalParametersFacts.lastParam_nil _ Hp), Hp. simpl.
      now destruct (isIIFE (ofFunction fn)).
    + intros front last Hp.
      unfold FunctionalParameters.getRestParamViolations,
        FunctionalParameters.getParamCountViolations.
      rewrite (FunctionalParametersFacts.lastParam_snoc _ _ _ Hp), Hp.
      rewrite length_app, Nat.add_comm. simpl.
      rewrite andb_false_r.
      destruct (isRestElement last); reflexivity.
  - intros Hignore Hname Hpn Hpa.
    change (defaultOptions noIgnore) with (Tuple o).
    unfold FunctionalParameters.checkIdentifier.
    now rewrite Hignore, Hname, Hpn, Hpa.
Qed.

Lemma checkFunction_ignored fn ctx o :
  shouldIgnorePattern (ofFunction fn) ctx o = true ->
  descriptors (checkFunction fn ctx (Tuple o)) = [].
Proof.
  intros H. unfold FunctionalParameters.checkFunction. now rewrite H.
Qed.

(** X10.  What [checkFunction] reads of a function: the number of its
    parameters, whether the last one is a rest element, and what the two
    imported predicates answer for it.  Two functions alike in these get
    the same message keys; the names, defaults and patterns of the
    parameters, the body, the name and the type of the function do not
    bear on the keys otherwise. *)
Theorem checkFunction_reads fn1 fn2 ctx o :
  shouldIgnorePattern (ofFunction fn1) ctx o
  = shouldIgnorePattern (ofFunction fn2) ctx o ->
  isIIFE (ofFunction fn1) = isIIFE (ofFunction fn2) ->
  length (params fn1) = length (params fn2) ->
  option_map isRestElement (lastParam fn1)
  = option_map isRestElement (lastParam fn2) ->
  messageIds (checkFunction fn1 ctx (Tuple o))
  = messageIds (checkFunction fn2 ctx (Tuple o)).
Proof.
  intros Hignore Hiife Hlen Hlast.
  unfold messageIds.
  destruct (shouldIgnorePattern (ofFunction fn2) ctx o) eqn:Hignore2.
  { now rewrite !checkFunction_ignored. }
  rewrite !(FunctionalParametersFacts.checkFunction_not_ignored
              shouldIgnorePattern isIIFE) by assumption.
  rewrite !map_app. f_equal.
  - unfold FunctionalParameters.getRestParamViolations. rewrite Hlen.
    destruct (lastParam fn1) as [l1|], (lastParam fn2) as [l2|];
      try discriminate Hlast; [|reflexivity].
    simpl in Hlast. injection Hlast as ->.
    now destruct (_ && _).
  - unfold FunctionalParameters.getParamCountViolations.
    rewrite Hlen, Hiife.
    destruct (_ || _); [reflexivity|].
    destruct (_ && _); [reflexivity|].
    now destruct (_ && _).
Qed.

End Handlers.

(** ** The statements at sample trees *)

Import Samples.

Abbreviation decl := AST_NODE_TYPES.FunctionDeclaration.

Abbreviation record r e :=
  {| ignorePatternOption := @nil IgnoreOptions.PatternEntry;
     allowRestParameter := r;
     allowArgumentsKeyword := false;
     enforceParameterCount := e |}.

Abbreviation checkFunction' :=
  (checkFunction IgnoreOptions.shouldIgnorePattern Tree.isIIFE).
Abbreviation checkIdentifier' :=
  (checkIdentifier IgnoreOptions.shouldIgnorePattern
     Tree.isPropertyAccess Tree.isPropertyName).

(** [function f(a, ...rest) {}] with rest parameters not allowed. *)
Lemma rest_parameter_violation_iff_witness :
  getRestParamViolations
    (Tuple (record false EnforceFalse))
    (declaration_f [ param_a decl; param_rest decl ])
  = [ {| node := param_rest decl; messageId := restParam |} ].
Proof.
  destruct (rest_parameter_violation_iff
              (record false EnforceFalse)
              (declaration_f [ param_a decl; param_rest decl ]))
    as [Hreported _].
  apply Hreported. repeat split.
  now exists [ param_a decl ].
Defined.

(** [function f() {}] under ["atLeastOne"]. *)
Lemma parameter_count_violation_iff_witness :
  getParamCountViolations Tree.isIIFE
    (Tuple (record false (EnforceString atLeastOne))) (declaration_f [])
  = [ {| node := ofFunction (declaration_f []);
         messageId := paramCountAtLeastOne |} ].
Proof.
  destruct (parameter_count_violation_iff Tree.isIIFE
              (record false (EnforceString atLeastOne)) (declaration_f []))
    as [Hreported _].
  apply Hreported. split; [reflexivity|]. split; [now left|].
  intros [[c Hc] _]. discriminate Hc.
Defined.

(** [function f(a) {}] under ["exactlyOne"]. *)
Lemma parameter_count_never_reported_witness :
  getParamCountViolations Tree.isIIFE
    (Tuple (record false (EnforceString exactlyOne)))
    (declaration_f [ param_a decl ])
  = [].
Proof.
  destruct (parameter_count_never_reported Tree.isIIFE
              (record false (EnforceString exactlyOne))
              (declaration_f [ param_a decl ])) as [Hone _].
  apply Hone. reflexivity.
Defined.

(** [(function () {})()] under ["exactlyOne"] and under
    [{ count: "exactlyOne", ignoreIIFE: true }]. *)
Lemma ignoreIIFE_needs_object_form_witness :
  getParamCountViolations Tree.isIIFE
    (Tuple (record false (EnforceString exactlyOne))) (invoked [])
  = [ {| node := ofFunction (invoked []);
         messageId := paramCountExactlyOne |} ]
  /\ getParamCountViolations Tree.isIIFE
       (Tuple (record false (EnforceObject exactlyOne true))) (invoked [])
     = [].
Proof.
  destruct (ignoreIIFE_needs_object_form Tree.isIIFE
              (invoked []) (@nil IgnoreOptions.PatternEntry)
              false false exactlyOne eq_refl)
    as (Hstring & _ & Hexempt & _).
  split; [exact Hstring | exact (Hexempt eq_refl)].
Defined.

(** A reference to [arguments] in a return statement. *)
Lemma arguments_keyword_reported_iff_witness :
  descriptors
    (checkIdentifier'
       {| id_parent :=
            Some (ChildOf (AST_NODE_TYPES.OtherType "ReturnStatement")
                          "argument");
          TSESTree.name := "arguments" |}
       context (Tuple (record false EnforceFalse)))
  <> [].
Proof.
  destruct (arguments_keyword_reported_iff
              IgnoreOptions.shouldIgnorePattern
              Tree.isPropertyAccess Tree.isPropertyName
              {| id_parent :=
                   Some (ChildOf (AST_NODE_TYPES.OtherType "ReturnStatement")
                                 "argument");
                 TSESTree.name := "arguments" |}
              context (record false EnforceFalse)) as [_ Hiff].
  apply Hiff. repeat split.
Defined.

(** [function f(a, ...rest) {}] under ["exactlyOne"]. *)
Lemma handler_message_keys_witness :
  2 <= length (params (declaration_f [ param_a decl; param_rest decl ])).
Proof.
  destruct (handler_message_keys
              IgnoreOptions.shouldIgnorePattern Tree.isIIFE
              Tree.isPropertyAccess Tree.isPropertyName
              (declaration_f [ param_a decl; param_rest decl ])
              {| id_parent := None; TSESTree.name := "x" |}
              context (record false (EnforceString exactlyOne)))
    as (_ & Hboth & _).
  apply Hboth. reflexivity.
Defined.

Lemma checkFunction_targets_witness :
  isRestElement (param_rest decl) = true
  /\ exists front,
       params (declaration_f [ param_a decl; param_rest decl ])
       = front ++ [ param_rest decl ].
Proof.
  destruct (checkFunction_targets
              IgnoreOptions.shouldIgnorePattern Tree.isIIFE
              (declaration_f [ param_a decl; param_rest decl ])
              context (record false (EnforceString exactlyOne))
              {| node := param_rest decl; messageId := restParam |})
    as [(_ & Hrest & Hlast) | ([Hkey | Hkey] & _)];
    [now left | now split | discriminate Hkey | discriminate Hkey].
Defined.

(** [function f(a, ...rest) {}] under ["exactlyOne"], rest parameters
    allowed and not. *)
Lemma relaxing_options_only_suppresses_witness :
  messageIds
    (checkFunction' (declaration_f [ param_a decl; param_rest decl ])
       context (Tuple (record false (EnforceString exactlyOne))))
  = [ restParam; paramCountExactlyOne ]
  /\ descriptors
       (checkFunction' (declaration_f [ param_a decl; param_rest decl ])
          context (Tuple (record true (EnforceString exactlyOne))))
     = filter (fun d => negb (isRestParam d))
         (descriptors
            (checkFunction' (declaration_f [ param_a decl; param_rest decl ])
               context (Tuple (record false (EnforceString exactlyOne))))).
Proof.
  split; [reflexivity|].
  destruct (relaxing_options_only_suppresses
              IgnoreOptions.shouldIgnorePattern Tree.isIIFE
              (declaration_f [ param_a decl; param_rest decl ])
              context [] false false (EnforceString exactlyOne))
    as [Hrest _].
  exact (Hrest eq_refl).
Defined.

(** [(function () {})()] and [function f(a, ...rest) {}] under the
    defaults. *)
Lemma default_options_behaviour_witness :
  descriptors (checkFunction' (invoked []) context (defaultOptions [])) = []
  /\ descriptors
       (checkFunction' (declaration_f [ param_a decl; param_rest decl ])
          context (defaultOptions []))
     = [ {| node := param_rest decl; messageId := restParam |} ].
Proof.
  split.
  - destruct (default_options_behaviour
                IgnoreOptions.shouldIgnorePattern Tree.isIIFE
                Tree.isPropertyAccess Tree.isPropertyName
                [] (invoked [])
                {| id_parent := None; TSESTree.name := "x" |} context)
      as (_ & Hfunction & _).
    destruct (Hfunction eq_refl) as [Hnone _].
    exact (Hnone eq_refl).
  - destruct (default_options_behaviour
                IgnoreOptions.shouldIgnorePattern Tree.isIIFE
                Tree.isPropertyAccess Tree.isPropertyName
                [] (declaration_f [ param_a decl; param_rest decl ])
                {| id_parent := None; TSESTree.name := "x" |} context)
      as (_ & Hfunction & _).
    destruct (Hfunction eq_refl) as [_ Hsome].
    exact (Hsome [ param_a decl ] (param_rest decl) eq_refl).
Defined.

(** [function f(a) {}] and [(b) => {}] under ["atLeastOne"]. *)
Lemma checkFunction_reads_witness :
  let arrow :=
    {| fn_parent := None;
       fn_type := IsArrowFunctionExpression;
       fn_id := None;
       params :=
         [ ident (inParams AST_NODE_TYPES.ArrowFunctionExpression) "b" ];
       fn_body := block AST_NODE_TYPES.ArrowFunctionExpression |} in
  messageIds
    (checkFunction' (declaration_f [ param_a decl ]) context
       (Tuple (record false (EnforceString atLeastOne))))
  = messageIds
      (checkFunction' arrow context
         (Tuple (record false (EnforceString atLeastOne)))).
Proof.
  intros arrow.
  apply (checkFunction_reads
           IgnoreOptions.shouldIgnorePattern Tree.isIIFE
           (declaration_f [ param_a decl ]) arrow context
           (record false (EnforceString atLeastOne)));
    reflexivity.
Defined.

End FunctionalParametersDetectors.

(* ================================================================== *)
(** * More on [no-promise-reject]                                      *)
(* ================================================================== *)

Module NoPromiseRejectCallee.
Import TSESTree Rule Typeguard NoPromiseReject.

Section Handlers.

Context {RuleContext : Type}.
Implicit Types (node : CallExpressionNode) (ctx : RuleContext).

#[local] Set Default Proof Using "Type".

(** X11.  [checkCallExpression] returns nothing or the one descriptor
    [generic] for the call, and it returns the descriptor exactly when the
    callee is a member expression whose object is the identifier [Promise]
    and whose property is the identifier [reject], both names compared as
    written; the [computed] flag of the member expression is not read, so
    [Promise[reject](...)] is reported as [Promise.reject(...)] is. *)
Theorem reject_reported_iff node ctx :
  let reported := descriptors (checkCallExpression node ctx) in
  (reported = []
   \/ reported = [ {| node := ofCallExpression node; messageId := generic |} ])
  /\ (reported <> []
      <-> exists object property computed,
            shape (callee node) = MemberExpression object property computed
            /\ shape object = Identifier "Promise"
            /\ shape property = Identifier "reject").
Proof.
  intros reported. subst reported.
  unfold checkCallExpression, asMemberExpression, asIdentifier.
  cbn [descriptors].
  destruct (shape (callee node)) eqn:Hcallee;
    try (split; [now left|]; split; [congruence|];
         intros (? & ? & ? & H & _); discriminate H).
  destruct (shape object) eqn:Hobject;
    try (split; [now left|]; split; [congruence|];
         intros (? & ? & ? & H & Ho & _); injection H as <- <- <-;
         rewrite Hobject in Ho; discriminate Ho).
  destruct (shape property) eqn:Hproperty;
    try (split; [now left|]; split; [congruence|];
         intros (? & ? & ? & H & _ & Hp); injection H as <- <- <-;
         rewrite Hproperty in Hp; discriminate Hp).
  destruct (String.eqb_spec name0 "Promise") as [-> | Hno];
    destruct (String.eqb_spec name1 "reject") as [-> | Hnp]; simpl.
  - split; [now right|]. split; [|discriminate].
    intros _. now exists object, property, computed.
  - split; [now left|]. split; [congruence|].
    intros (? & ? & ? & H & _ & Hp). injection H as <- <- <-.
    rewrite Hproperty in Hp. congruence.
  - split; [now left|]. split; [congruence|].
    intros (? & ? & ? & H & Ho & _). injection H as <- <- <-.
    rewrite Hobject in Ho. congruence.
  - split; [now left|]. split; [congruence|].
    intros (? & ? & ? & H & Ho & _). injection H as <- <- <-.
    rewrite Hobject in Ho. congruence.
Qed.

End Handlers.

Import Samples.

(** [Promise[reject](e)], a computed access through a variable [reject]. *)
Lemma reject_reported_iff_witness :
  descriptors
    (checkCallExpression (call (member "Promise" "reject" true) []) context)
  <> [].
Proof.
  destruct (reject_reported_iff
              (call (member "Promise" "reject" true) []) context)
    as [_ Hiff].
  apply Hiff. do 3 eexists. repeat split.
Defined.

End NoPromiseRejectCallee.

(* ================================================================== *)
(** * The count detector on untyped options                            *)
(* ================================================================== *)

Module UntypedFacts.
Import TSESTree Rule JSON FunctionalParameters.

Local Abbreviation raw := FunctionalParametersSchema.raw.
Local Abbreviation rawParameterCount :=
  FunctionalParametersSchema.rawParameterCount.

Section Detector.

Variable isIIFE : Node -> bool.
Context {IgnorePatternOption : Type}.

#[local] Set Default Proof Using "Type".

Implicit Types (fn : FunctionNode) (v : value)
         (o : OptionsObject IgnorePatternOption).

Local Abbreviation typed :=
  (FunctionalParameters.getParamCountViolations
     (IgnorePatternOption := IgnorePatternOption) isIIFE).
Local Abbreviation untyped := (Untyped.getParamCountViolations isIIFE).

(** The detector on an object, by what its two fields read as. *)
Lemma untyped_object members fn c b :
  lookup "count" members = Some (rawParameterCount c) ->
  lookup "ignoreIIFE" members = Some (Bool b) ->
  forall o,
    enforceParameterCount o = EnforceObject c b ->
    untyped (Object members) fn = inr (typed (Tuple o) fn).
Proof.
  intros Hcount Hignore o He.
  unfold Untyped.getParamCountViolations, Untyped.countIs,
    FunctionalParameters.getParamCountViolations.
  rewrite He. cbn -[String.eqb lookup Nat.eqb].
  unfold Untyped.andThen.
  destruct (length (params fn)) as [|[|n]];
    cbn -[String.eqb lookup]; rewrite ?Hcount, ?Hignore;
    destruct c, b, (isIIFE (ofFunction fn)); reflexivity.
Qed.

(** X12.  The typed reading of [getParamCountViolations] is the source's
    own on well-typed options: on the raw value of an option of the
    declared type the tests of the source return, and return what the typed
    function does; for an object only what [count] and [ignoreIIFE] read as
    matters, not the order of the members nor what else the object
    holds. *)
Theorem typed_detector_agrees o fn :
  untyped (raw (enforceParameterCount o)) fn = inr (typed (Tuple o) fn)
  /\ (forall members c b,
         enforceParameterCount o = EnforceObject c b ->
         lookup "count" members = Some (rawParameterCount c) ->
         lookup "ignoreIIFE" members = Some (Bool b) ->
         untyped (Object members) fn = inr (typed (Tuple o) fn)).
Proof.
  split.
  - destruct (enforceParameterCount o) as [|c|c b] eqn:He.
    + unfold Untyped.getParamCountViolations,
        FunctionalParameters.getParamCountViolations.
      now rewrite He.
    + unfold Untyped.getParamCountViolations, Untyped.countIs,
        FunctionalParameters.getParamCountViolations.
      rewrite He.
      destruct (length (params fn)) as [|[|n]]; destruct c; reflexivity.
    + now apply (untyped_object _ fn c b).
  - intros members c b He Hcount Hignore.
    now apply (untyped_object members fn c b).
Qed.

(** When the detector throws. *)
Lemma untyped_Null fn :
  untyped Null fn
  = match length (params fn) with
    | 0 => inl (Untyped.CannotReadPropertiesOfNull "ignoreIIFE")
    | 1 => inr []
    | _ => inl (Untyped.CannotReadPropertiesOfNull "count")
    end.
Proof.
  unfold Untyped.getParamCountViolations.
  destruct (length (params fn)) as [|[|n]]; reflexivity.
Qed.

Lemma untyped_returns v fn :
  v <> Null -> exists reported, untyped v fn = inr reported.
Proof.
  intros Hv.
  unfold Untyped.getParamCountViolations, Untyped.countIs.
  destruct v as [|b|n|s|items|members]; [now destruct Hv| | | | |].
  all: destruct (length (params fn)) as [|[|k]];
    cbn -[String.eqb lookup];
    unfold Untyped.andThen, Untyped.orElse, Untyped.bind, Untyped.ret;
    repeat match goal with
           | |- context [if ?c then _ else _] => destruct c
           end;
    eauto.
Qed.

(** X13.  [getParamCountViolations] throws on one value only: [null],
    which [typeof] takes for an object, and then for a function without
    parameters (reading [ignoreIIFE]) and for one with two parameters or
    more (reading [count]), not for a function with one parameter.  On
    every other value it returns; so it does on every value the check of
    the option lets through. *)
Theorem untyped_detector_throws_iff v fn err :
  (untyped v fn = inl err
   <-> v = Null
       /\ ((params fn = []
            /\ err = Untyped.CannotReadPropertiesOfNull "ignoreIIFE")
           \/ (2 <= length (params fn)
               /\ err = Untyped.CannotReadPropertiesOfNull "count")))
  /\ (FunctionalParametersSchema.checkEnforceParameterCount v = None ->
      exists reported, untyped v fn = inr reported).
Proof.
  split.
  - split.
    + intros H.
      assert (Hnull : v = Null).
      { destruct v; try reflexivity;
          match type of H with
          | untyped ?x fn = _ =>
              destruct (untyped_returns x fn) as [r Hr];
              [discriminate | rewrite Hr in H; discriminate H]
          end. }
      subst v. split; [reflexivity|].
      rewrite untyped_Null in H.
      destruct (params fn) as [|p [|q ps]]; simpl in H;
        try discriminate H; injection H as <-.
      * left. split; reflexivity.
      * right. split; [simpl; lia | reflexivity].
    + intros (-> & [[Hp ->] | [Hlen ->]]); rewrite untyped_Null.
      * now rewrite Hp.
      * destruct (length (params fn)) as [|[|n]]; [lia | lia | reflexivity].
  - intros Hv. apply untyped_returns. intros ->. discriminate Hv.
Qed.

Lemma isString_true_iff (x : option value) (text : string) :
  Untyped.isString x text = true <-> x = Some (String text).
Proof.
  destruct x as [[|b|n|s|items|members]|]; simpl; split;
    try discriminate.
  - intros H. apply String.eqb_eq in H. now subst.
  - intros H. injection H as ->. apply String.eqb_refl.
Qed.

Lemma isString_false (x : option value) (text : string) :
  x <> Some (String text) -> Untyped.isString x text = false.
Proof.
  intros H. destruct (Untyped.isString x text) eqn:E; [|reflexivity].
  apply isString_true_iff in E. contradiction.
Qed.

(** X14.  Values outside the declared type switch the detector off without
    notice: on any value other than [null], the two strings and an object
    whose [count] is one of the two strings -- so on [true], a number, an
    array, another string, [{}] -- nothing is reported for any function.
    An object without [ignoreIIFE] is read as one with
    [ignoreIIFE = false]. *)
Theorem untyped_detector_disabled v fn :
  (v <> Null ->
   v <> String "atLeastOne" ->
   v <> String "exactlyOne" ->
   (forall members,
       v = Object members ->
       lookup "count" members <> Some (String "atLeastOne")
       /\ lookup "count" members <> Some (String "exactlyOne")) ->
   untyped v fn = inr [])
  /\ (forall members,
         lookup "ignoreIIFE" members = None ->
         untyped (Object members) fn
         = untyped (Object (("ignoreIIFE", Bool false) :: members)) fn).
Proof.
  split.
  - intros Hnull Ha He Hobject.
    unfold Untyped.getParamCountViolations, Untyped.countIs.
    destruct v as [|b|n|s|items|members]; [now destruct Hnull| | | | |].
    + destruct b, (length (params fn)) as [|[|k]]; reflexivity.
    + destruct (length (params fn)) as [|[|k]]; reflexivity.
    + assert (Hsa : Untyped.isString (Some (String s)) "atLeastOne" = false)
        by (apply isString_false; congruence).
      assert (Hse : Untyped.isString (Some (String s)) "exactlyOne" = false)
        by (apply isString_false; congruence).
      rewrite Hsa, Hse.
      destruct (length (params fn)) as [|[|k]]; reflexivity.
    + destruct (length (params fn)) as [|[|k]]; reflexivity.
    + destruct (Hobject members eq_refl) as [Hca Hce].
      apply isString_false in Hca, Hce.
      unfold Untyped.get, Untyped.bind, Untyped.ret.
      rewrite Hca, Hce.
      destruct (length (params fn)) as [|[|k]];
        cbn -[lookup];
        try destruct (Untyped.truthy _ && _); reflexivity.
  - intros members Hnone.
    unfold Untyped.getParamCountViolations, Untyped.countIs, Untyped.get.
    change (lookup "count" (("ignoreIIFE", Bool false) :: members))
      with (lookup "count" members).
    change (lookup "ignoreIIFE" (("ignoreIIFE", Bool false) :: members))
      with (Some (Bool false)).
    now rewrite Hnone.
Qed.

End Detector.

(** ** The statements at sample values *)

Import Samples.

(** [(function () {})()] under
    [{ ignoreIIFE: true, count: "atLeastOne" }]. *)
Lemma typed_detector_agrees_witness :
  Untyped.getParamCountViolations Tree.isIIFE
    (Object [ ("ignoreIIFE", Bool true); ("count", String "atLeastOne") ])
    (invoked [])
  = inr [].
Proof.
  destruct (typed_detector_agrees Tree.isIIFE
              {| ignorePatternOption := tt;
                 allowRestParameter := false;
                 allowArgumentsKeyword := false;
                 enforceParameterCount := EnforceObject atLeastOne true |}
              (invoked [])) as [_ Hobject].
  exact (Hobject
           [ ("ignoreIIFE", Bool true); ("count", String "atLeastOne") ]
           atLeastOne true eq_refl eq_refl eq_refl).
Defined.

(** [function f() {}] under [null]. *)
Lemma untyped_detector_throws_iff_witness :
  Untyped.getParamCountViolations Tree.isIIFE Null (declaration_f [])
  = inl (Untyped.CannotReadPropertiesOfNull "ignoreIIFE").
Proof.
  destruct (untyped_detector_throws_iff Tree.isIIFE Null (declaration_f [])
              (Untyped.CannotReadPropertiesOfNull "ignoreIIFE"))
    as [Hiff _].
  apply Hiff. split; [reflexivity|]. left. split; reflexivity.
Defined.

(** [function f() {}] under [{}]. *)
Lemma untyped_detector_disabled_witness :
  Untyped.getParamCountViolations Tree.isIIFE (Object []) (declaration_f [])
  = inr [].
Proof.
  destruct (untyped_detector_disabled Tree.isIIFE (Object [])
              (declaration_f [])) as [Hoff _].
  apply Hoff; try discriminate.
  intros members H. injection H as <-. split; discriminate.
Defined.

End UntypedFacts.


(* ================================================================== *)
(** * The option check within a session                                *)
(* ================================================================== *)

Module ActivationFacts.
Import TSESTree Rule JSON JSONSchema4 FunctionalParametersSchema Activation.

Section Rule.

Context {IgnorePatternOption RuleContext : Type}.
Variable shouldIgnorePattern :
  Node -> RuleContext -> Options IgnorePatternOption -> bool.
Variable isIIFE : Node -> bool.
Variable isPropertyAccess : Node -> bool.
Variable isPropertyName : Node -> bool.

Local Abbreviation analyse :=
  (Activation.analyse
     shouldIgnorePattern isIIFE isPropertyAccess isPropertyName).
Local Abbreviation handle :=
  (Activation.handle
     shouldIgnorePattern isIIFE isPropertyAccess isPropertyName).

#[local] Set Default Proof Using "Type".

Implicit Types (o : Options IgnorePatternOption) (ctx : RuleContext)
         (visited : list Visit).

(** No handler call checks the option. *)
Lemma no_check_among_handled visited :
  filter isCheck (map Handled visited) = [].
Proof. induction visited as [|v vs IH]; [reflexivity | exact IH]. Qed.

(** With a configured value other than [null], a handler returns. *)
Lemma handle_returns ctx o v :
  Activation.enforceParameterCount o <> Null ->
  exists result, handle ctx o v = inr result.
Proof.
  intros Hv. destruct v as [node | node]; simpl.
  - unfold Activation.checkFunction.
    destruct (shouldIgnorePattern _ _ _); [eexists; reflexivity|].
    destruct (UntypedFacts.untyped_returns isIIFE _ node Hv) as [ds ->].
    eexists. reflexivity.
  - unfold Activation.checkIdentifier.
    destruct (shouldIgnorePattern _ _ _); eexists; reflexivity.
Qed.

Lemma handled_all_return ctx o visited :
  Activation.enforceParameterCount o <> Null ->
  exists results,
    map (handle ctx o) visited = map inr results
    /\ length results = length visited.
Proof.
  intros Hv. induction visited as [|v vs (results & Hmap & Hlen)].
  - now exists [].
  - destruct (handle_returns ctx o v Hv) as [r Hr].
    exists (r :: results). simpl. now rewrite Hr, Hmap, Hlen.
Qed.

Lemma admitted_not_Null : ~ admitted Null.
Proof. intros [H | [H | [H | (m & H & _)]]]; discriminate H. Qed.

(** C7, amended.  The configured [enforceParameterCount] is checked once in
    a session, first, whatever nodes are visited after.  The check lets
    through each of the four declared shapes -- ["atLeastOne"],
    ["exactlyOne"], [false], [{ count, ignoreIIFE }] --, and beyond them
    only the objects of the fourth shape with [count] or [ignoreIIFE] left
    out; with such a value every visited node is handled and every handler
    call returns a result, no error.  Every other value -- a number, [true],
    [null], an array, another string, an object with another key or with a
    field of the wrong type -- ends the session at the check with one
    [ConfigurationError] that names the rule and the option, and no node is
    handled. *)
Theorem enforceParameterCount_checked_once o ctx visited :
  let v := Activation.enforceParameterCount o in
  let session := analyse o ctx visited in
  let error :=
    {| ruleName := "functional-parameters";
       optionPath := "enforceParameterCount" |} in
  (hd_error (events session) = Some OptionChecked
   /\ length (filter isCheck (events session)) = 1)
  /\ (admitted v ->
      events session = OptionChecked :: map Handled visited
      /\ exists results,
           outcome session = inr (map inr results)
           /\ length results = length visited)
  /\ (~ admitted v ->
      events session = [ OptionChecked ] /\ outcome session = inl error)
  /\ (forall w, declaredShape w -> admitted w)
  /\ (forall w,
         admitted w ->
         declaredShape w
         \/ exists members,
              w = Object members
              /\ partialObject members
              /\ (lookup "count" members = None
                  \/ lookup "ignoreIIFE" members = None))
  /\ (forall n, ~ admitted (Number n))
  /\ ~ admitted (Bool true)
  /\ ~ admitted Null
  /\ (forall items, ~ admitted (Array items))
  /\ (forall s, s <> "atLeastOne" -> s <> "exactlyOne" ->
                ~ admitted (String s))
  /\ (forall members key x,
         In (key, x) members -> key <> "count" -> key <> "ignoreIIFE" ->
         ~ admitted (Object members))
  /\ (forall members x,
         lookup "count" members = Some x ->
         x <> String "atLeastOne" -> x <> String "exactlyOne" ->
         ~ admitted (Object members))
  /\ (forall members x,
         lookup "ignoreIIFE" members = Some x ->
         (forall b, x <> Bool b) ->
         ~ admitted (Object members)).
Proof.
  intros v session error. subst v session error.
  pose proof FunctionalParametersSchemaFacts.enforceParameterCount_admits
    as (_ & _ & _ & _ & Hnumber & Htrue & Hnull & Harray & Hstring
        & Hkey & Hcount & Hignore).
  assert (Hno : forall w e,
             checkEnforceParameterCount w = Some e -> ~ admitted w).
  { intros w e Hw Ha.
    apply FunctionalParametersSchemaFacts.checkEnforceParameterCount_None
      in Ha.
    rewrite Ha in Hw. discriminate Hw. }
  split.
  { unfold Activation.analyse.
    destruct (checkEnforceParameterCount (Activation.enforceParameterCount o));
      cbn [events];
      (split; [reflexivity|]); [reflexivity|].
    cbn [filter isCheck]. now rewrite no_check_among_handled. }
  split.
  { intros Ha.
    assert (Hv : Activation.enforceParameterCount o <> Null).
    { intros E. rewrite E in Ha. exact (admitted_not_Null Ha). }
    apply FunctionalParametersSchemaFacts.checkEnforceParameterCount_None
      in Ha.
    unfold Activation.analyse. rewrite Ha. simpl.
    split; [reflexivity|].
    destruct (handled_all_return ctx o visited Hv) as (results & Hmap & Hlen).
    exists results. now rewrite Hmap. }
  split.
  { intros Ha.
    apply FunctionalParametersSchemaFacts.checkEnforceParameterCount_Some
      in Ha.
    unfold Activation.analyse. rewrite Ha. now split. }
  split; [exact FunctionalParametersSchemaFacts.declaredShape_admitted|].
  split; [exact FunctionalParametersSchemaFacts.admitted_cases|].
  repeat split; intros; eapply Hno; eauto.
Qed.

End Rule.

(** ** The statement at sample sessions *)

Import Samples.

(** Two visited nodes, [function f() {}] and a reference to [arguments],
    under [enforceParameterCount: 5] and under [enforceParameterCount: {}]. *)
Lemma enforceParameterCount_checked_once_witness :
  let visited :=
    [ VisitFunction (declaration_f []);
      VisitIdentifier
        {| id_parent := None; TSESTree.name := "arguments" |} ] in
  let configured v :=
    {| ignorePatternOption := tt;
       allowRestParameter := false;
       allowArgumentsKeyword := false;
       enforceParameterCount := v |} in
  let analyse' :=
    Activation.analyse (fun _ _ _ => false)
      Tree.isIIFE Tree.isPropertyAccess Tree.isPropertyName in
  (events (analyse' (configured (Number 5)) context visited)
   = [ OptionChecked ]
   /\ outcome (analyse' (configured (Number 5)) context visited)
      = inl {| ruleName := "functional-parameters";
               optionPath := "enforceParameterCount" |})
  /\ events (analyse' (configured (Object [])) context visited)
     = OptionChecked :: map Handled visited.
Proof.
  intros visited configured analyse'.
  split.
  - destruct (enforceParameterCount_checked_once
                (fun _ _ _ => false)
                Tree.isIIFE Tree.isPropertyAccess Tree.isPropertyName
                (configured (Number 5)) context visited)
      as (_ & _ & Hrejected & _ & _ & Hnumber & _).
    exact (Hrejected (Hnumber 5%Q)).
  - destruct (enforceParameterCount_checked_once
                (fun _ _ _ => false)
                Tree.isIIFE Tree.isPropertyAccess Tree.isPropertyName
                (configured (Object [])) context visited)
      as (_ & Hadmitted & _).
    apply Hadmitted. right. right. right. exists []. split; [reflexivity|].
    repeat split.
    + intros member [].
    + intros x H. discriminate H.
    + intros x H. discriminate H.
Defined.

End ActivationFacts.
